(** * tools/auth/nextcloud.go: the Nextcloud OAuth2 provider

    A shallow embedding of the Nextcloud provider of the [auth] package:
    the constructor [NewNextcloudProvider], the registration done by the
    package's [init], [FetchRawUserInfo] and [FetchAuthUser], together with
    the parts of Go's [encoding/json] and [net/http] these functions call.

    Go strings and byte slices are Rocq [string]s (sequences of 8-bit
    characters); a Go [(value, error)] result whose value is [nil] exactly
    when the error is not is a [result]. *)

From Stdlib Require Import ZArith Ascii String List Bool Lia.
From stdpp Require Import base option gmap strings list.

Set Warnings "-register-all".

Local Open Scope Z_scope.
Local Open Scope list_scope.

(** ** Bytes *)

Definition bytes := string.

Definition byteZ (c : ascii) : Z := Z.of_N (N_of_ascii c).
Definition byte_of_Z (z : Z) : ascii := ascii_of_N (Z.to_N (z mod 256)).

Definition chars (s : string) : list ascii := list_ascii_of_string s.
Definition of_chars (l : list ascii) : string := string_of_list_ascii l.

Definition in_range (lo hi : Z) (c : ascii) : bool :=
  (lo <=? byteZ c) && (byteZ c <=? hi).

(** ** encoding/json

    [Unmarshal] first checks the whole input with the scanner (a byte-wise
    state machine with a stack of open containers) and reports a
    [SyntaxError] when it is not one JSON value; only then does it store the
    value into its target, saving the first [UnmarshalTypeError] it meets
    while it goes on decoding.  The model runs the same state machine and
    lets it build the syntax tree on the way; the two targets used by
    [FetchAuthUser] are then filled from the tree. *)

Module json.

(** [Value] names the JSON value met ("array", "number", ...) and [Type_]
    the Go type it could not be stored in; offsets are not kept. *)
Inductive error :=
| SyntaxError
| UnmarshalTypeError (Value : string) (Type_ : string).

(** The value read by the scanner: object members are kept in input order,
    duplicates included, and a number keeps its literal. *)
Inductive value :=
| JNull
| JBool (b : bool)
| JNumber (lit : string)
| JString (s : string)
| JArray (elems : list value)
| JObject (members : list (string * value)).

(** *** String literals ([unquote]) *)

Definition hexval (c : ascii) : option Z :=
  if in_range 48 57 c then Some (byteZ c - 48)
  else if in_range 97 102 c then Some (byteZ c - 97 + 10)
  else if in_range 65 70 c then Some (byteZ c - 65 + 10)
  else None.

Definition getu4 (a b c d : ascii) : option Z :=
  match hexval a, hexval b, hexval c, hexval d with
  | Some x, Some y, Some z, Some w => Some (((x * 16 + y) * 16 + z) * 16 + w)
  | _, _, _, _ => None
  end.

Definition ReplacementChar : Z := 65533.

Definition IsSurrogate (r : Z) : bool := (55296 <=? r) && (r <? 57344).

(** [utf16.DecodeRune]: the code point of a surrogate pair, the
    replacement character for anything else. *)
Definition utf16_DecodeRune (r1 r2 : Z) : Z :=
  if (55296 <=? r1) && (r1 <? 56320) && (56320 <=? r2) && (r2 <? 57344)
  then (r1 - 55296) * 1024 + (r2 - 56320) + 65536
  else ReplacementChar.

(** [utf8.EncodeRune] *)
Definition EncodeRune (r : Z) : list ascii :=
  if (r <? 0) || (1114111 <? r) || IsSurrogate r then
    [byte_of_Z 239; byte_of_Z 191; byte_of_Z 189]
  else if r <? 128 then [byte_of_Z r]
  else if r <? 2048 then
    [byte_of_Z (192 + r / 64); byte_of_Z (128 + r mod 64)]
  else if r <? 65536 then
    [byte_of_Z (224 + r / 4096); byte_of_Z (128 + (r / 64) mod 64);
     byte_of_Z (128 + r mod 64)]
  else
    [byte_of_Z (240 + r / 262144); byte_of_Z (128 + (r / 4096) mod 64);
     byte_of_Z (128 + (r / 64) mod 64); byte_of_Z (128 + r mod 64)].

Definition cont (c : ascii) : bool := in_range 128 191 c.

(** Well-formed UTF-8 sequences of two, three and four bytes, as
    [utf8.DecodeRune] accepts them (no overlong forms, no surrogates,
    nothing above U+10FFFF). *)
Definition utf8_2 (c0 c1 : ascii) : bool := in_range 194 223 c0 && cont c1.

Definition utf8_3 (c0 c1 c2 : ascii) : bool :=
  ((in_range 224 224 c0 && in_range 160 191 c1)
   || ((in_range 225 236 c0 || in_range 238 239 c0) && cont c1)
   || (in_range 237 237 c0 && in_range 128 159 c1))
  && cont c2.

Definition utf8_4 (c0 c1 c2 c3 : ascii) : bool :=
  ((in_range 240 240 c0 && in_range 144 191 c1)
   || (in_range 241 243 c0 && cont c1)
   || (in_range 244 244 c0 && in_range 128 143 c1))
  && cont c2 && cont c3.

Definition escaped (c : ascii) : ascii :=
  match c with
  | "b" => "008" | "f" => "012" | "n" => "010" | "r" => "013" | "t" => "009"
  | _ => c
  end%char.

(** The text between the quotes of a literal the scanner accepted, with
    escapes resolved and every byte that is not part of well-formed UTF-8
    replaced by U+FFFD. *)
Fixpoint unquote (s : list ascii) : list ascii :=
  let bad := EncodeRune ReplacementChar in
  match s with
  | [] => []
  | "\"%char :: "u"%char :: a :: b :: c :: d :: rest =>
      match getu4 a b c d with
      | None => bad ++ unquote rest
      | Some rr =>
          if IsSurrogate rr then
            match rest with
            | "\"%char :: "u"%char :: a' :: b' :: c' :: d' :: rest' =>
                match getu4 a' b' c' d' with
                | Some rr1 =>
                    if utf16_DecodeRune rr rr1 =? ReplacementChar
                    then bad ++ unquote rest
                    else EncodeRune (utf16_DecodeRune rr rr1) ++ unquote rest'
                | None => bad ++ unquote rest
                end
            | _ => bad ++ unquote rest
            end
          else EncodeRune rr ++ unquote rest
      end
  | "\"%char :: c :: rest => escaped c :: unquote rest
  | c0 :: rest =>
      if byteZ c0 <? 128 then c0 :: unquote rest else
      match rest with
      | c1 :: rest1 =>
          if utf8_2 c0 c1 then c0 :: c1 :: unquote rest1 else
          match rest1 with
          | c2 :: rest2 =>
              if utf8_3 c0 c1 c2 then c0 :: c1 :: c2 :: unquote rest2 else
              match rest2 with
              | c3 :: rest3 =>
                  if utf8_4 c0 c1 c2 c3
                  then c0 :: c1 :: c2 :: c3 :: unquote rest3
                  else bad ++ unquote rest
              | [] => bad ++ unquote rest
              end
          | [] => bad ++ unquote rest
          end
      | [] => bad
      end
  end.

(** *** The scanner *)

(** An open container, with what it holds so far (latest first). *)
Inductive frame :=
| parseObjectKey (members : list (string * value))
| parseObjectValue (members : list (string * value)) (key : string)
| parseArrayValue (elems : list value).

Inductive numstate :=
| stateNeg | state0 | state1 | stateDot | stateDot0
| stateE | stateESign | stateE0.

(** [stateEndValue v]: the value [v] is complete and waits for what
    follows it; with no open container this is the scanner's
    [stateEndTop].  String and number states carry the bytes read so far,
    latest first. *)
Inductive state :=
| stateBeginValue
| stateBeginValueOrEmpty
| stateBeginStringOrEmpty
| stateBeginString
| stateEndValue (v : value)
| stateInString (raw : list ascii)
| stateInStringEsc (raw : list ascii)
| stateInStringEscU (seen : nat) (raw : list ascii)
| stateNumber (ns : numstate) (lit : list ascii)
| stateLiteral (rest : list ascii) (v : value)
| stateError.

Definition scanner : Type := state * list frame.

Definition isSpace (c : ascii) : bool :=
  match c with
  | " " | "009" | "013" | "010" => true
  | _ => false
  end%char.

Definition isDigit (c : ascii) : bool := in_range 48 57 c.

Definition maxNestingDepth : Z := 10000.

Definition pushParseState (f : frame) (stack : list frame) (success : state)
  : scanner :=
  if Z.of_nat (length (f :: stack)) <=? maxNestingDepth
  then (success, f :: stack)
  else (stateError, f :: stack).

Definition beginValue (c : ascii) (stack : list frame) : scanner :=
  if isSpace c then (stateBeginValue, stack) else
  match c with
  | "{" => pushParseState (parseObjectKey []) stack stateBeginStringOrEmpty
  | "[" => pushParseState (parseArrayValue []) stack stateBeginValueOrEmpty
  | "034" => (stateInString [], stack)
  | "-" => (stateNumber stateNeg [c], stack)
  | "0" => (stateNumber state0 [c], stack)
  | "t" => (stateLiteral ["r"; "u"; "e"] (JBool true), stack)
  | "f" => (stateLiteral ["a"; "l"; "s"; "e"] (JBool false), stack)
  | "n" => (stateLiteral ["u"; "l"; "l"] JNull, stack)
  | _ => if in_range 49 57 c then (stateNumber state1 [c], stack)
         else (stateError, stack)
  end%char.

Definition beginString (c : ascii) (stack : list frame) : scanner :=
  if isSpace c then (stateBeginString, stack) else
  match c with
  | "034" => (stateInString [], stack)
  | _ => (stateError, stack)
  end%char.

Definition endValue (v : value) (c : ascii) (stack : list frame) : scanner :=
  if isSpace c then (stateEndValue v, stack) else
  match stack with
  | [] => (stateError, stack)
  | parseObjectKey members :: stack' =>
      match v, c with
      | JString key, ":"%char =>
          (stateBeginValue, parseObjectValue members key :: stack')
      | _, _ => (stateError, stack)
      end
  | parseObjectValue members key :: stack' =>
      match c with
      | "," => (stateBeginString, parseObjectKey ((key, v) :: members) :: stack')
      | "}" => (stateEndValue (JObject (rev ((key, v) :: members))), stack')
      | _ => (stateError, stack)
      end%char
  | parseArrayValue elems :: stack' =>
      match c with
      | "," => (stateBeginValue, parseArrayValue (v :: elems) :: stack')
      | "]" => (stateEndValue (JArray (rev (v :: elems))), stack')
      | _ => (stateError, stack)
      end%char
  end.

Definition number (lit : list ascii) : value := JNumber (of_chars (rev lit)).

Definition stepNumber (ns : numstate) (lit : list ascii) (c : ascii)
  (stack : list frame) : scanner :=
  let go ns' := (stateNumber ns' (c :: lit), stack) in
  let isE := match c with "e" | "E" => true | _ => false end%char in
  match ns with
  | stateNeg =>
      if in_range 48 48 c then go state0
      else if in_range 49 57 c then go state1
      else (stateError, stack)
  | state1 =>
      if isDigit c then go state1
      else if in_range 46 46 c then go stateDot
      else if isE then go stateE
      else endValue (number lit) c stack
  | state0 =>
      if in_range 46 46 c then go stateDot
      else if isE then go stateE
      else endValue (number lit) c stack
  | stateDot => if isDigit c then go stateDot0 else (stateError, stack)
  | stateDot0 =>
      if isDigit c then go stateDot0
      else if isE then go stateE
      else endValue (number lit) c stack
  | stateE =>
      if in_range 43 43 c || in_range 45 45 c then go stateESign
      else if isDigit c then go stateE0
      else (stateError, stack)
  | stateESign => if isDigit c then go stateE0 else (stateError, stack)
  | stateE0 =>
      if isDigit c then go stateE0 else endValue (number lit) c stack
  end.

Definition step (s : scanner) (c : ascii) : scanner :=
  let '(st, stack) := s in
  match st with
  | stateBeginValue => beginValue c stack
  | stateBeginValueOrEmpty =>
      if isSpace c then s else
      match c, stack with
      | "]"%char, parseArrayValue elems :: stack' =>
          (stateEndValue (JArray (rev elems)), stack')
      | _, _ => beginValue c stack
      end
  | stateBeginStringOrEmpty =>
      if isSpace c then s else
      match c, stack with
      | "}"%char, parseObjectKey members :: stack' =>
          (stateEndValue (JObject (rev members)), stack')
      | _, _ => beginString c stack
      end
  | stateBeginString => beginString c stack
  | stateEndValue v => endValue v c stack
  | stateInString raw =>
      match c with
      | "034"%char =>
          (stateEndValue (JString (of_chars (unquote (rev raw)))), stack)
      | "\"%char => (stateInStringEsc (c :: raw), stack)
      | _ => if byteZ c <? 32 then (stateError, stack)
             else (stateInString (c :: raw), stack)
      end
  | stateInStringEsc raw =>
      match c with
      | "b" | "f" | "n" | "r" | "t" | "\" | "/" | "034" =>
          (stateInString (c :: raw), stack)
      | "u" => (stateInStringEscU 0 (c :: raw), stack)
      | _ => (stateError, stack)
      end%char
  | stateInStringEscU seen raw =>
      match hexval c with
      | Some _ =>
          if (seen <? 3)%nat then (stateInStringEscU (S seen) (c :: raw), stack)
          else (stateInString (c :: raw), stack)
      | None => (stateError, stack)
      end
  | stateNumber ns lit => stepNumber ns lit c stack
  | stateLiteral rest v =>
      match rest with
      | x :: rest' =>
          if Ascii.eqb c x then
            match rest' with
            | [] => (stateEndValue v, stack)
            | _ => (stateLiteral rest' v, stack)
            end
          else (stateError, stack)
      | [] => (stateError, stack)
      end
  | stateError => s
  end.

(** [checkValid] and the scanner's [eof], which feeds one space before it
    asks whether a top-level value is complete. *)
Definition parse (data : bytes) : option value :=
  match step (fold_left step (chars data) (stateBeginValue, [])) " "%char with
  | (stateEndValue v, []) => Some v
  | _ => None
  end.

(** *** Decoding: common parts *)

(** [decodeState.saveError] keeps the first error. *)
Definition saveError (saved : option error) (e : error) : option error :=
  match saved with
  | Some _ => saved
  | None => Some e
  end.

(** How an [UnmarshalTypeError] names the value it met. *)
Definition kind (v : value) : string :=
  match v with
  | JNull => "null"
  | JBool _ => "bool"
  | JNumber _ => "number"
  | JString _ => "string"
  | JArray _ => "array"
  | JObject _ => "object"
  end.

(** What [Unmarshal] does for a target of one Go type: store the scanned
    value in the target, given the error saved so far.  It stands for the
    reflection on the type of the pointer passed to [Unmarshal]. *)
Definition decoder (T : Type) : Type :=
  value -> T -> option error -> T * option error.

Definition Unmarshal {T : Type} (d : decoder T) (data : bytes) (target : T)
  : T * option error :=
  match parse data with
  | None => (target, Some SyntaxError)
  | Some v => d v target None
  end.

(** *** Numbers stored in an empty interface

    A number becomes a [float64]; [strconv.ParseFloat] reports a range
    error when the literal, rounded to nearest even, does not fit, that is
    from [2^1024 - 2^970] on.  The literal is read the way [readFloat]
    does: [nd] significant digits of value [mant], decimal point after [dp]
    of them, an exponent that stops growing at 10000. *)

Fixpoint readMantissa (s : list ascii) (sawdot : bool) (nd dp mant : Z)
  : Z * Z * Z * list ascii :=
  match s with
  | [] => (nd, (if sawdot then dp else nd), mant, [])
  | c :: rest =>
      if in_range 46 46 c then readMantissa rest true nd nd mant
      else if isDigit c then
        if in_range 48 48 c && (nd =? 0)
        then readMantissa rest sawdot nd (dp - 1) mant
        else readMantissa rest sawdot (nd + 1) dp (mant * 10 + (byteZ c - 48))
      else (nd, (if sawdot then dp else nd), mant, rest)
  end.

Definition readExponent (s : list ascii) : Z :=
  let digits e := fold_left
    (fun e c => if e <? 10000 then e * 10 + (byteZ c - 48) else e) e 0 in
  match s with
  | "+"%char :: rest => digits rest
  | "-"%char :: rest => - digits rest
  | _ => digits s
  end.

Definition float64_overflows (lit : string) : bool :=
  let s := match chars lit with "-"%char :: rest => rest | l => l end in
  let '(nd, dp, mant, rest) := readMantissa s false 0 0 0 in
  let dp := dp + readExponent rest in
  if mant =? 0 then false
  else if 310 <? dp then true
  else if dp <? -330 then false
  else if nd <=? dp then 2 ^ 1024 - 2 ^ 970 <=? mant * 10 ^ (dp - nd)
  else (2 ^ 1024 - 2 ^ 970) * 10 ^ (nd - dp) <=? mant.

(** The Go values [Unmarshal] stores in an [any]: [nil], [bool],
    [float64], [string], [[]any] and [map[string]any].  The model keeps
    the literal of a [float64], not its rounded value. *)
Inductive any :=
| Nil
| Bool (b : bool)
| Float64 (lit : string)
| String_ (s : string)
| Slice (elems : list any)
| Map (m : gmap string any).

Definition convertNumber (lit : string) (saved : option error)
  : any * option error :=
  if float64_overflows lit
  then (Nil, saveError saved (UnmarshalTypeError ("number " +:+ lit) "float64"))
  else (Float64 lit, saved).

(** [valueInterface], with [arrayInterface] and [objectInterface] as its
    local loops; a later member of an object replaces an earlier one of
    the same name. *)
Fixpoint valueInterface (v : value) (saved : option error)
  : any * option error :=
  match v with
  | JNull => (Nil, saved)
  | JBool b => (Bool b, saved)
  | JNumber lit => convertNumber lit saved
  | JString s => (String_ s, saved)
  | JArray elems =>
      let arrayInterface :=
        fix arrayInterface (l : list value) (saved : option error)
          : list any * option error :=
          match l with
          | [] => ([], saved)
          | x :: l' =>
              let '(a, saved) := valueInterface x saved in
              let '(rest, saved) := arrayInterface l' saved in
              (a :: rest, saved)
          end in
      let '(l, saved) := arrayInterface elems saved in (Slice l, saved)
  | JObject members =>
      let objectInterface :=
        fix objectInterface (l : list (string * value))
          (m : gmap string any) (saved : option error)
          : gmap string any * option error :=
          match l with
          | [] => (m, saved)
          | (key, x) :: l' =>
              let '(a, saved) := valueInterface x saved in
              objectInterface l' (<[key := a]> m) saved
          end in
      let '(m, saved) := objectInterface members ∅ saved in (Map m, saved)
  end.

(** *** Target [map[string]any]

    [None] is the nil map.  [null] sets the map to nil, an object adds its
    members to the map (made first when it is nil), any other value is a
    type error. *)
Fixpoint objectMap (l : list (string * value)) (m : gmap string any)
  (saved : option error) : gmap string any * option error :=
  match l with
  | [] => (m, saved)
  | (key, x) :: l' =>
      let '(a, saved) := valueInterface x saved in
      objectMap l' (<[key := a]> m) saved
  end.

Definition mapValue : decoder (option (gmap string any)) :=
  fun v target saved =>
  match v with
  | JNull => (None, saved)
  | JObject members =>
      let '(m, saved) := objectMap members (default ∅ target) saved in
      (Some m, saved)
  | _ =>
      (target,
       saveError saved (UnmarshalTypeError (kind v) "map[string]interface {}"))
  end.

(** *** Target [string] *)
Definition stringValue : decoder string :=
  fun v target saved =>
  match v with
  | JString s => (s, saved)
  | JNull => (target, saved)
  | _ => (target, saveError saved (UnmarshalTypeError (kind v) "string"))
  end.

(** *** Struct targets

    A member is stored in the field whose name is the member's key, or
    else in the field whose name equals the key up to case folding; a
    member that matches no field is skipped. *)

(** [foldName]: ASCII letters to upper case; U+017F (long s) and U+212A
    (Kelvin sign), the two runes outside ASCII that fold to an ASCII
    letter, to [S] and [K].  All other runes fold to runes outside ASCII
    and are left as they are, which does not change whether two folded
    names are equal when one of them is ASCII. *)
Fixpoint foldChars (s : list ascii) : list ascii :=
  match s with
  | [] => []
  | c0 :: rest =>
      if in_range 97 122 c0 then byte_of_Z (byteZ c0 - 32) :: foldChars rest
      else
        match rest with
        | c1 :: rest1 =>
            if in_range 197 197 c0 && in_range 191 191 c1
            then "S"%char :: foldChars rest1
            else
              match rest1 with
              | c2 :: rest2 =>
                  if in_range 226 226 c0 && in_range 132 132 c1
                     && in_range 170 170 c2
                  then "K"%char :: foldChars rest2
                  else c0 :: foldChars rest
              | [] => c0 :: foldChars rest
              end
        | [] => [c0]
        end
  end.

Definition foldName (s : string) : string := of_chars (foldChars (chars s)).

Record field (T : Type) := Field { name : string; store : decoder T }.
Arguments Field {T}.
Arguments name {T}.
Arguments store {T}.

Definition lookupField {T : Type} (fields : list (field T)) (key : string)
  : option (field T) :=
  match List.find (fun f => String.eqb (name f) key) fields with
  | Some f => Some f
  | None =>
      List.find (fun f => String.eqb (foldName (name f)) (foldName key)) fields
  end.

Fixpoint object {T : Type} (fields : list (field T))
  (members : list (string * value)) (target : T) (saved : option error)
  : T * option error :=
  match members with
  | [] => (target, saved)
  | (key, v) :: rest =>
      match lookupField fields key with
      | Some f =>
          let '(target, saved) := store f v target saved in
          object fields rest target saved
      | None => object fields rest target saved
      end
  end.

Definition structValue {T : Type} (type : string) (fields : list (field T))
  : decoder T :=
  fun v target saved =>
  match v with
  | JObject members => object fields members target saved
  | JNull => (target, saved)
  | _ => (target, saveError saved (UnmarshalTypeError (kind v) type))
  end.

(** The decoder of a field of type [F] inside a struct of type [T]. *)
Definition inField {T F : Type} (get : T -> F) (set : F -> T -> T)
  (d : decoder F) : decoder T :=
  fun v target saved =>
  let '(x, saved) := d v (get target) saved in (set x target, saved).

End json.

(** A JSON text written with apostrophes in the place of double quotes. *)
Definition dq (s : string) : string :=
  of_chars (map (fun c => if Ascii.eqb c "'"%char then "034"%char else c)
                (chars s)).



(** ** Errors and results *)

(** The Go [error] values of this development, by where they are made. *)
Inductive error :=
| RequestError (msg : string)
| TransportError (msg : string)
| StatusError (url : string) (code : Z) (body : bytes)
| JSONError (e : json.error)
| DateTimeError (msg : string).

(** The error taxonomy of the specification. *)
Inductive ErrorKind :=
| ConfigurationError
| TokenExchangeError
| UserInfoFetchError
| NormalizationError
| NotFoundError
| Cancelled.

(** An error made while the profile is requested (building the request,
    the transport, a refused status) is a [UserInfoFetchError]; one made
    while the payload is turned into an identity is a
    [NormalizationError]. *)
Definition kindOf (e : error) : ErrorKind :=
  match e with
  | RequestError _ | TransportError _ | StatusError _ _ _ => UserInfoFetchError
  | JSONError _ | DateTimeError _ => NormalizationError
  end.

Inductive result (A : Type) :=
| Ok (a : A)
| Err (e : error).
Arguments Ok {A}.
Arguments Err {A}.

(** ** time, oauth2, types *)

Module time.

(** [time.Time] as the nanoseconds since the zero time; the zero value of
    the type is that instant. *)
Definition Time : Type := Z.

End time.

Module oauth2.

(** The token a method receives through its pointer, which is taken not to
    be nil.  [Claims] is the payload of the identity claims that came with
    the token response, as JSON bytes. *)
Record Token := {
  AccessToken : string;
  RefreshToken : string;
  Expiry : time.Time;
  Claims : bytes;
}.

End oauth2.

Module types.

(** Modelled from the spec: the canonical timestamp type [types.DateTime]
    (tools/types is not among the sources), a wrapper of a point in time
    whose zero value wraps the zero time. *)
Record DateTime := { Time : time.Time }.

Definition zero : DateTime := {| Time := 0 |}.

(** Modelled from the spec: [types.ParseDateTime], which parses its
    argument "into a canonical timestamp type" and returns a value and an
    error.  Nothing more is said of it, so it is a parameter of what
    follows. *)
Class Parser := ParseDateTime : time.Time -> DateTime * option error.

End types.

(** ** net/http *)

(** [context.Context]; the constructor stores [context.Background()]. *)
Inductive Context := Background.

Module http.

Record Request := {
  Method : string;
  URL : string;
  Header : gmap string (list string);
}.

Record Response := {
  StatusCode : Z;
  Body : bytes;
}.

(** [textproto.CanonicalMIMEHeaderKey] on keys made of letters, digits
    and hyphens: upper case at the start and after a hyphen, lower case
    elsewhere. *)
Fixpoint canonical (upper : bool) (s : list ascii) : list ascii :=
  match s with
  | [] => []
  | c :: rest =>
      let c' :=
        if upper && in_range 97 122 c then byte_of_Z (byteZ c - 32)
        else if negb upper && in_range 65 90 c then byte_of_Z (byteZ c + 32)
        else c in
      c' :: canonical (in_range 45 45 c) rest
  end.

Definition CanonicalMIMEHeaderKey (s : string) : string :=
  of_chars (canonical true (chars s)).

(** [req.Header.Set(key, value)] *)
Definition Set_ (key value : string) (req : Request) : Request :=
  {| Method := Method req; URL := URL req;
     Header := <[CanonicalMIMEHeaderKey key := [value]]> (Header req) |}.

Definition stringContainsCTLByte (s : string) : bool :=
  existsb (fun c => (byteZ c <? 32) || (byteZ c =? 127)) (chars s).

(** [http.NewRequestWithContext(ctx, method, url, nil)] for a valid method.
    It fails on a nil context and on a URL that [url.Parse] rejects; of the
    latter only the check for control bytes is modelled, which is exact on
    the empty URL, the only one passed to it here. *)
Definition NewRequestWithContext (c : option Context) (method url : string)
  : result Request :=
  match c with
  | None => Err (RequestError "net/http: nil Context")
  | Some _ =>
      if stringContainsCTLByte url
      then Err (RequestError "net/url: invalid control character in URL")
      else Ok {| Method := method; URL := url; Header := ∅ |}
  end.

End http.

(** ** The world: the HTTP client capability

    [transport] answers a request with a response or a transport error;
    [sent] records the requests handed to it, oldest first. *)
Record World := {
  transport : http.Request -> http.Response + string;
  sent : list http.Request;
}.

Definition M (A : Type) : Type := World -> result A * World.

#[global] Instance M_ret : MRet M := fun A a w => (Ok a, w).
#[global] Instance M_bind : MBind M := fun A B k m w =>
  match m w with
  | (Ok a, w') => k a w'
  | (Err e, w') => (Err e, w')
  end.

Definition fail {A : Type} (e : error) : M A := fun w => (Err e, w).

(** A Go call that returns [(value, error)] without touching the world. *)
Definition lift {A : Type} (r : result A) : M A := fun w => (r, w).

(** [if err := json.Unmarshal(data, &target); err != nil { return nil, err }] *)
Definition unmarshal {T : Type} (d : json.decoder T) (data : bytes)
  (target : T) : M T :=
  match json.Unmarshal d data target with
  | (_, Some err) => fail (JSONError err)
  | (target, None) => mret target
  end.

(** [client.Do(req)] *)
Definition Do (req : http.Request) : M http.Response := fun w =>
  let w' := {| transport := transport w; sent := sent w ++ [req] |} in
  match transport w req with
  | inl res => (Ok res, w')
  | inr msg => (Err (TransportError msg), w')
  end.

(** ** Package auth *)

(** Modelled from the spec: the Canonical Identity [AuthUser] (declared
    outside the sources), with the fields of the data model. *)
Record AuthUser := {
  Id : string;
  Name : string;
  Username : string;
  Email : string;
  AvatarURL : string;
  RawUser : option (gmap string json.any);
  AccessToken : string;
  RefreshToken : string;
  Expiry : types.DateTime;
}.

Definition setExpiry (d : types.DateTime) (u : AuthUser) : AuthUser :=
  {| Id := Id u; Name := Name u; Username := Username u; Email := Email u;
     AvatarURL := AvatarURL u; RawUser := RawUser u;
     AccessToken := AccessToken u; RefreshToken := RefreshToken u;
     Expiry := d |}.

(** Modelled from the spec: the Provider Configuration held by
    [BaseProvider] (declared outside the sources), and the context the
    constructor stores in it; [None] is the nil context of the zero
    value. *)
Record BaseProvider := {
  ctx : option Context;
  clientId : string;
  clientSecret : string;
  displayName : string;
  redirectURL : string;
  authURL : string;
  tokenURL : string;
  userInfoURL : string;
  scopes : list string;
  pkce : bool;
}.

(** Modelled from the spec: [BaseProvider.sendRawUserInfoRequest], the
    authenticated request of the Base Provider Engine: "Bearer token in the
    Authorization header", "returns the raw response bytes; fails with
    UserInfoFetchError on non-2xx or transport failure". *)
Definition sendRawUserInfoRequest (p : BaseProvider) (req : http.Request)
  (token : oauth2.Token) : M bytes :=
  res ← Do (http.Set_ "Authorization"
              ("Bearer " +:+ oauth2.AccessToken token) req);
  if (200 <=? http.StatusCode res) && (http.StatusCode res <? 300)
  then mret (http.Body res)
  else fail (StatusError (userInfoURL p) (http.StatusCode res) (http.Body res)).

(** Modelled from the spec: [BaseProvider.FetchRawUserInfo]: "if
    userInfoURL is non-empty, issues an authenticated GET [...] If
    userInfoURL is empty, falls back to decoding the identity claims
    embedded in the token response itself [...] and returns that as the raw
    bytes". *)
Definition BaseProvider_FetchRawUserInfo (p : BaseProvider)
  (token : oauth2.Token) : M bytes :=
  if negb (String.eqb (userInfoURL p) "") then
    sendRawUserInfoRequest p
      {| http.Method := "GET"; http.URL := userInfoURL p; http.Header := ∅ |}
      token
  else mret (oauth2.Claims token).

(** [NameNextcloud] is the unique name of the Nextcloud provider. *)
Definition NameNextcloud : string := "nextcloud".

(** [Nextcloud] embeds [BaseProvider]. *)
Record Nextcloud := { base :> BaseProvider }.

(** [NewNextcloudProvider] creates new Nextcloud provider instance with
    some defaults. *)
Definition NewNextcloudProvider (_ : unit) : Nextcloud :=
  {| base := {|
       ctx := Some Background;
       displayName := "Nextcloud";
       pkce := true;
       scopes := ["read:user"; "user:email"];
       authURL := "https://nextcloud.your.domain/apps/oauth2/authorize";
       tokenURL := "https://nextcloud.your.domain/apps/oauth2/api/v1/token";
       userInfoURL :=
         "https://nextcloud.your.domain/ocs/v2.php/cloud/user?format=json";
       clientId := "";
       clientSecret := "";
       redirectURL := "";
     |} |}.

(** [FetchRawUserInfo] of [*Nextcloud]. *)
Definition FetchRawUserInfo (p : Nextcloud) (token : oauth2.Token) : M bytes :=
  if negb (String.eqb (userInfoURL p) "") then
    BaseProvider_FetchRawUserInfo p token
  else
    req ← lift (http.NewRequestWithContext (ctx p) "GET" (userInfoURL p));
    let req := http.Set_ "Authorization"
                 ("Bearer " +:+ oauth2.AccessToken token) req in
    let req := http.Set_ "OCS-APIRequest" "true" req in
    sendRawUserInfoRequest p req token.

(** The struct matching the Nextcloud response structure, declared in
    [FetchAuthUser]. *)
Module resp.

Record data := { ID : string; DisplayName : string; Email : string }.
Record ocs := { Data : data }.
Record t := { OCS : ocs }.

Definition zero : t :=
  {| OCS := {| Data := {| ID := ""; DisplayName := ""; Email := "" |} |} |}.

Definition dataFields : list (json.field data) :=
  [ json.Field "id"
      (json.inField ID
         (fun x d => {| ID := x; DisplayName := DisplayName d;
                        Email := Email d |})
         json.stringValue);
    json.Field "displayname"
      (json.inField DisplayName
         (fun x d => {| ID := ID d; DisplayName := x; Email := Email d |})
         json.stringValue);
    json.Field "email"
      (json.inField Email
         (fun x d => {| ID := ID d; DisplayName := DisplayName d;
                        Email := x |})
         json.stringValue) ].

Definition ocsFields : list (json.field ocs) :=
  [ json.Field "data"
      (json.inField Data (fun x _ => {| Data := x |})
         (json.structValue "struct" dataFields)) ].

Definition fields : list (json.field t) :=
  [ json.Field "ocs"
      (json.inField OCS (fun x _ => {| OCS := x |})
         (json.structValue "struct" ocsFields)) ].

Definition decoder : json.decoder t := json.structValue "struct" fields.

End resp.

Section FetchAuthUser.

Context `{parser : !types.Parser}.

(** [FetchAuthUser] returns an [AuthUser] instance based on Nextcloud's
    user api.  The debug log line at its start is left out. *)
Definition FetchAuthUser (p : Nextcloud) (token : oauth2.Token) : M AuthUser :=
  data ← FetchRawUserInfo p token;
  rawUser ← unmarshal json.mapValue data (Some ∅);
  resp ← unmarshal resp.decoder data resp.zero;
  let user :=
    {| Id := resp.ID (resp.Data (resp.OCS resp));
       Name := resp.DisplayName (resp.Data (resp.OCS resp));
       Username := resp.ID (resp.Data (resp.OCS resp));
       Email := resp.Email (resp.Data (resp.OCS resp));
       AvatarURL := "";
       RawUser := rawUser;
       AccessToken := oauth2.AccessToken token;
       RefreshToken := oauth2.RefreshToken token;
       Expiry := types.zero |} in
  let '(expiry, _) := types.ParseDateTime (oauth2.Expiry token) in
  mret (setExpiry expiry user).

(** The Provider interface, as far as this file implements it. *)
Class Provider (T : Type) := {
  Provider_FetchRawUserInfo : T -> oauth2.Token -> M bytes;
  Provider_FetchAuthUser : T -> oauth2.Token -> M AuthUser;
}.

(** [Nextcloud] implements [Provider] (the assertion [var _ Provider]
    of the source). *)
#[global] Instance Nextcloud_Provider : Provider Nextcloud := {|
  Provider_FetchRawUserInfo := FetchRawUserInfo;
  Provider_FetchAuthUser := FetchAuthUser;
|}.

(** A value of the interface type: a receiver with the methods of its
    dynamic type. *)
Record ProviderValue := {
  dynamicType : Type;
  methods : Provider dynamicType;
  receiver : dynamicType;
}.

(** Modelled from the spec: the provider factory contract
    "[() -> Provider], registered by name in the Registry", and
    [wrapFactory], which turns a constructor into such a factory. *)
Definition ProviderFactoryFunc : Type := unit -> ProviderValue.

Definition wrapFactory {T : Type} `{!Provider T} (factory : unit -> T)
  : ProviderFactoryFunc :=
  fun _ => {| dynamicType := T; methods := _; receiver := factory tt |}.

(** Modelled from the spec: the Provider Registry [Providers], the
    "process-wide mapping from provider name (string) to constructor
    function".  It is one part of the state of a process; [registered]
    lists, oldest first, the names this package has stored a factory under,
    and [world] is what the methods act on. *)
Record Process := {
  Providers : gmap string ProviderFactoryFunc;
  registered : list string;
  world : World;
}.

(** [init]: [Providers[NameNextcloud] = wrapFactory(NewNextcloudProvider)] *)
Definition init (s : Process) : Process :=
  {| Providers := <[NameNextcloud := wrapFactory NewNextcloudProvider]>
                    (Providers s);
     registered := registered s ++ [NameNextcloud];
     world := world s |}.

(** What a program can call in this file once the package is
    initialised.  None of these functions mentions [Providers]: a call
    acts on the world and leaves the rest of the process as it is. *)
Inductive Call :=
| CallNewNextcloudProvider
| CallFetchRawUserInfo (p : Nextcloud) (token : oauth2.Token)
| CallFetchAuthUser (p : Nextcloud) (token : oauth2.Token).

Definition inWorld {A : Type} (m : M A) (s : Process) : Process :=
  {| Providers := Providers s; registered := registered s;
     world := (m (world s)).2 |}.

Definition exec (s : Process) (c : Call) : Process :=
  match c with
  | CallNewNextcloudProvider => inWorld (mret (NewNextcloudProvider tt)) s
  | CallFetchRawUserInfo p token => inWorld (FetchRawUserInfo p token) s
  | CallFetchAuthUser p token => inWorld (FetchAuthUser p token) s
  end.

(** A process runs the package's [init] once, before anything else, and
    then any sequence of calls. *)
Definition run (s0 : Process) (calls : list Call) : Process :=
  fold_left exec calls (init s0).

End FetchAuthUser.

(** ** Reading a payload

    The values a payload holds for a field of the response structure: the
    members of [ocs.data] that [Unmarshal] stores in that field, over all
    members named [ocs] and [data], in input order. *)

Fixpoint selected {T : Type} (fields : list (json.field T)) (name : string)
  (members : list (string * json.value)) : list json.value :=
  match members with
  | [] => []
  | (key, v) :: rest =>
      match json.lookupField fields key with
      | Some f =>
          if String.eqb (json.name f) name
          then v :: selected fields name rest
          else selected fields name rest
      | None => selected fields name rest
      end
  end.

Definition membersOf (v : json.value) : list (string * json.value) :=
  match v with
  | json.JObject members => members
  | _ => []
  end.

Definition dataValues (name : string) (v : json.value) : list json.value :=
  o ← selected resp.fields "ocs" (membersOf v);
  d ← selected resp.ocsFields "data" (membersOf o);
  selected resp.dataFields name (membersOf d).

(** A value that leaves a string field empty: [null] or the empty
    string. *)
Definition blank (v : json.value) : Prop :=
  v = json.JNull \/ v = json.JString "".

(** The string fields of [ocs.data], by their JSON names. *)
Inductive dataField : string -> (resp.data -> string) -> Prop :=
| field_id : dataField "id" resp.ID
| field_displayname : dataField "displayname" resp.DisplayName
| field_email : dataField "email" resp.Email.

(** The top-level values [Unmarshal] refuses for both targets. *)
Definition wrongShape (v : json.value) : bool :=
  match v with
  | json.JObject _ | json.JNull => false
  | _ => true
  end.

(** The string that a sequence of values leaves in a string field which
    held [init]: the last string among them, [init] when there is none. *)
Definition lastString (init : string) (l : list json.value) : string :=
  fold_left (fun acc x => match x with json.JString s => s | _ => acc end)
    l init.

(** The values of the members that [Unmarshal] stores in some field. *)
Fixpoint matched {T : Type} (fields : list (json.field T))
  (members : list (string * json.value)) : list json.value :=
  match members with
  | [] => []
  | (key, v) :: rest =>
      match json.lookupField fields key with
      | Some _ => v :: matched fields rest
      | None => matched fields rest
      end
  end.

(** The value of the last member with a given key. *)
Definition lastMember (key : string) (members : list (string * json.value))
  : option json.value :=
  fold_left (fun acc kv => if String.eqb kv.1 key then Some kv.2 else acc)
    members None.

(** A string with its ASCII letters in upper case. *)
Definition upperChar (c : ascii) : ascii :=
  if in_range 97 122 c then byte_of_Z (byteZ c - 32) else c.

Definition asciiUpper (s : string) : string :=
  of_chars (map upperChar (chars s)).

(** The Go value the generic decode makes of a JSON value. *)
Definition decoded (x : json.value) : json.any := (json.valueInterface x None).1.

(** A value that is neither a string nor [null]. *)
Definition notString (v : json.value) : bool :=
  match v with
  | json.JString _ | json.JNull => false
  | _ => true
  end.

(** A value that holds, at any depth, a number out of the range of
    [float64]. *)
Fixpoint outOfRange (v : json.value) : bool :=
  match v with
  | json.JNumber lit => json.float64_overflows lit
  | json.JArray elems => existsb outOfRange elems
  | json.JObject members => existsb (fun kv => outOfRange kv.2) members
  | _ => false
  end.

(** Payloads that do not fit the response structure: a value that is not
    an object (nor [null]) where an object is expected, at the top, under
    [ocs] or under [ocs.data], or a value that is not a string (nor
    [null]) in a field of [ocs.data]. *)
Definition badData (d : json.value) : bool :=
  wrongShape d || existsb notString (matched resp.dataFields (membersOf d)).

Definition badOCS (o : json.value) : bool :=
  wrongShape o || existsb badData (matched resp.ocsFields (membersOf o)).

Definition badResp (v : json.value) : bool :=
  wrongShape v || existsb badOCS (matched resp.fields (membersOf v)).

Definition accepted (v : json.value) : bool :=
  negb (badResp v) && negb (outOfRange v).

Definition failed {E : Type} (saved : option E) : bool :=
  match saved with
  | Some _ => true
  | None => false
  end.

(** ** Scenarios *)

(** The scenario payload as a JSON value. *)
Definition janeValue : json.value :=
  json.JObject [("ocs", json.JObject [("data", json.JObject
    [("id", json.JString "u1"); ("displayname", json.JString "Jane Doe");
     ("email", json.JString "jane@example.test")])])].

(** A payload with a numeric id, sent twice under [ocs.data]. *)
Definition numericIdPayload : bytes :=
  dq "{'ocs':{'data':{'id':'u1','ID':7}}}".

(** A payload that gives the id twice, under two spellings of its name,
    and no name. *)
Definition shadowedPayload : bytes :=
  dq "{'ocs':{'data':{'id':'u1','ID':'u2','email':null}}}".

Definition shadowedIdentity : AuthUser :=
  {| Id := "u2"; Name := ""; Username := "u2"; Email := ""; AvatarURL := "";
     RawUser :=
       Some {[ "ocs" := json.Map {[ "data" := json.Map
         (<["id" := json.String_ "u1"]>
            (<["ID" := json.String_ "u2"]> {[ "email" := json.Nil ]})) ]} ]};
     AccessToken := "tok123"; RefreshToken := "ref456";
     Expiry := {| types.Time := 63000000000 |} |}.

(** The zero value of [Nextcloud]: no context, no URL. *)
Definition zeroProvider : Nextcloud :=
  {| base := {|
       ctx := None; clientId := ""; clientSecret := ""; displayName := "";
       redirectURL := ""; authURL := ""; tokenURL := ""; userInfoURL := "";
       scopes := []; pkce := false |} |}.


(** A conversion that wraps the time and never fails. *)
Definition wrapTime : types.Parser :=
  fun t => ({| types.Time := t |}, None).



Definition withUserInfoURL (url : string) (pk : bool) : Nextcloud :=
  let p := NewNextcloudProvider tt in
  {| base := {|
       ctx := ctx p; clientId := clientId p; clientSecret := clientSecret p;
       displayName := displayName p; redirectURL := redirectURL p;
       authURL := authURL p; tokenURL := tokenURL p;
       userInfoURL := url; scopes := scopes p; pkce := pk |} |}.

Definition exampleProvider : Nextcloud :=
  withUserInfoURL "https://example.test/profile" false.

Definition noURLProvider : Nextcloud := withUserInfoURL "" true.

Definition tok123 : oauth2.Token :=
  {| oauth2.AccessToken := "tok123"; oauth2.RefreshToken := "ref456";
     oauth2.Expiry := 63000000000; oauth2.Claims := dq "{'sub':'u1'}" |}.


(** A fake transport that answers every request alike. *)
Definition answering (code : Z) (body : bytes) : World :=
  {| transport := fun _ => inl {| http.StatusCode := code; http.Body := body |};
     sent := [] |}.

(** A transport that refuses every request, as the default transport of
    net/http refuses a URL without a scheme. *)
Definition refusing (msg : string) : World :=
  {| transport := fun _ => inr msg; sent := [] |}.

Definition janePayload : bytes :=
  dq "{'ocs':{'data':{'id':'u1','displayname':'Jane Doe','email':'jane@example.test'}}}".

(** The request [FetchRawUserInfo] builds when [userInfoURL] is empty. *)
Definition emptyURLRequest (token : oauth2.Token) : http.Request :=
  {| http.Method := "GET"; http.URL := "";
     http.Header :=
       {[ "Authorization" := ["Bearer " +:+ oauth2.AccessToken token];
          "Ocs-Apirequest" := ["true"] ]} |}.

(** The identity of the scenario of the specification. *)
Definition janeIdentity : AuthUser :=
  {| Id := "u1"; Name := "Jane Doe"; Username := "u1";
     Email := "jane@example.test"; AvatarURL := "";
     RawUser :=
       Some {[ "ocs" := json.Map {[ "data" := json.Map
         (<["id" := json.String_ "u1"]>
            (<["displayname" := json.String_ "Jane Doe"]>
               {[ "email" := json.String_ "jane@example.test" ]})) ]} ]};
     AccessToken := "tok123"; RefreshToken := "ref456";
     Expiry := {| types.Time := 63000000000 |} |}.

(** An identity with nothing in it but the credentials of [tok123]. *)
Definition emptyIdentity (rawUser : option (gmap string json.any)) : AuthUser :=
  {| Id := ""; Name := ""; Username := ""; Email := ""; AvatarURL := "";
     RawUser := rawUser;
     AccessToken := "tok123"; RefreshToken := "ref456";
     Expiry := {| types.Time := 63000000000 |} |}.


(** A process before its packages are initialised. *)
Definition emptyProcess : Process :=
  {| Providers := ∅; registered := []; world := answering 200 janePayload |}.

(** * Properties *)

(** ** The decoder on examples *)

Example parse_object :
  json.parse (dq " { 'a' : [1, -2.5e+3, true, null], 'b' : {} } ") =
  Some (json.JObject
          [("a", json.JArray [json.JNumber "1"; json.JNumber "-2.5e+3";
                              json.JBool true; json.JNull]);
           ("b", json.JObject [])]).
Proof. reflexivity. Qed.

Example parse_escapes :
  json.parse (dq "'a\u0041\n\u00e9😀\ud83d\ude00\ud83dz\/'") =
  Some (json.JString
          (of_chars (["a"; "A"; "010"]%char
                     ++ map byte_of_Z [195; 169]
                     ++ map byte_of_Z [240; 159; 152; 128]
                     ++ map byte_of_Z [240; 159; 152; 128]
                     ++ map byte_of_Z [239; 191; 189]
                     ++ ["z"; "/"]%char))).
Proof. reflexivity. Qed.

Example parse_invalid_utf8 :
  json.parse (of_chars ("034"%char :: map byte_of_Z [255; 237; 160; 128]
                        ++ ["034"%char])) =
  Some (json.JString
          (of_chars (map byte_of_Z
                       [239; 191; 189; 239; 191; 189; 239; 191; 189;
                        239; 191; 189]))).
Proof. reflexivity. Qed.

Example parse_rejects :
  map json.parse
    ["";  "nul"; "01"; "1."; "-"; "[1,]"; dq "{'a':1,}"; dq "{'a' 1}";
     "{} x"; dq "'abc"; dq "'\x'"; dq "{a:1}"; "[1 2]"; "+1"; ".5"; "1e"]
  = repeat None 16.
Proof. reflexivity. Qed.

Example parse_scalars :
  map json.parse ["null"; " true "; "12"; "-0.5E-7"; dq "''"] =
  [Some json.JNull; Some (json.JBool true); Some (json.JNumber "12");
   Some (json.JNumber "-0.5E-7"); Some (json.JString "")].
Proof. reflexivity. Qed.

Example float64_range :
  map json.float64_overflows
    ["1.7976931348623157e308"; "1.797693134862315807e308";
     "1.797693134862315808e308"; "1e309"; "-1e309"; "0e999999";
     "1e-999999"; "0.0001e313"; "123.456"]
  = [false; false; true; true; true; false; false; true; false].
Proof. vm_compute. reflexivity. Qed.

Example map_number_out_of_range :
  (json.Unmarshal json.mapValue (dq "{'n':1e999}") (Some ∅)).2 =
  Some (json.UnmarshalTypeError "number 1e999" "float64").
Proof. vm_compute. reflexivity. Qed.

Example map_last_member_wins :
  json.Unmarshal json.mapValue (dq "{'a':1,'a':'x'}") (Some ∅) =
  (Some {[ "a" := json.String_ "x" ]}, None).
Proof. vm_compute. reflexivity. Qed.

Example resp_folded_names_and_merge :
  json.Unmarshal resp.decoder
    (dq "{'OCS':{'Data':{'ID':'u1'}},'ocs':{'data':{'email':'e','x':[1]}}}")
    resp.zero =
  ({| resp.OCS := {| resp.Data :=
        {| resp.ID := "u1"; resp.DisplayName := ""; resp.Email := "e" |} |} |},
   None).
Proof. vm_compute. reflexivity. Qed.

Example resp_wrong_types :
  map (fun data => (json.Unmarshal resp.decoder (dq data) resp.zero).2)
    ["{'ocs':{'data':{'id':7}}}"; "{'ocs':[]}"; "{'ocs':{'data':'x'}}";
     "[]"; "{'ocs':null}"; "{'ocs':{'data':{'id':null}}}"]
  = [Some (json.UnmarshalTypeError "number" "string");
     Some (json.UnmarshalTypeError "array" "struct");
     Some (json.UnmarshalTypeError "string" "struct");
     Some (json.UnmarshalTypeError "array" "struct");
     None; None].
Proof. vm_compute. reflexivity. Qed.


Section Properties.

Context `{parser : !types.Parser}.

(** [FetchAuthUser], one step at a time. *)
Lemma FetchAuthUser_unfold (p : Nextcloud) (token : oauth2.Token) (w : World) :
  FetchAuthUser p token w =
  match FetchRawUserInfo p token w with
  | (Err e, w') => (Err e, w')
  | (Ok data, w') =>
      match json.Unmarshal json.mapValue data (Some ∅) with
      | (_, Some err) => (Err (JSONError err), w')
      | (rawUser, None) =>
          match json.Unmarshal resp.decoder data resp.zero with
          | (_, Some err) => (Err (JSONError err), w')
          | (r, None) =>
              (Ok {| Id := resp.ID (resp.Data (resp.OCS r));
                     Name := resp.DisplayName (resp.Data (resp.OCS r));
                     Username := resp.ID (resp.Data (resp.OCS r));
                     Email := resp.Email (resp.Data (resp.OCS r));
                     AvatarURL := "";
                     RawUser := rawUser;
                     AccessToken := oauth2.AccessToken token;
                     RefreshToken := oauth2.RefreshToken token;
                     Expiry := (types.ParseDateTime (oauth2.Expiry token)).1 |},
               w')
          end
      end
  end.
Proof.
  unfold FetchAuthUser, mbind, M_bind, unmarshal.
  destruct (FetchRawUserInfo p token w) as [[data|e] w']; [|reflexivity].
  destruct (json.Unmarshal json.mapValue data (Some ∅)) as [rawUser [err|]];
    [reflexivity|].
  cbn.
  destruct (json.Unmarshal resp.decoder data resp.zero) as [r [err|]];
    [reflexivity|].
  cbn. destruct (types.ParseDateTime (oauth2.Expiry token)); reflexivity.
Qed.

(** *** Fields that a payload leaves empty *)

Lemma lookupField_In {T : Type} (fields : list (json.field T)) (key : string)
  (f : json.field T) :
  json.lookupField fields key = Some f -> In f fields.
Proof.
  unfold json.lookupField.
  destruct (find (fun f => String.eqb (json.name f) key) fields) eqn:Hexact.
  - intros [= <-]. eapply find_some, Hexact.
  - intros Hfold. eapply find_some, Hfold.
Qed.

Lemma data_blank (name : string) (get : resp.data -> string) :
  dataField name get ->
  forall (members : list (string * json.value)) (d : resp.data)
         (saved : option json.error),
    Forall blank (selected resp.dataFields name members) ->
    get d = "" ->
    get (json.object resp.dataFields members d saved).1 = "".
Proof.
  intros Hfield.
  induction members as [|[key v] rest IH]; intros d saved Hb Hd; [exact Hd|].
  cbn [json.object selected] in *.
  destruct (json.lookupField resp.dataFields key) as [f|] eqn:Hf; [|auto].
  apply lookupField_In in Hf.
  destruct Hf as [<-|[<-|[<-|[]]]]; destruct Hfield; cbn in Hb |- *;
    try (inversion Hb as [|? ? [-> | ->] Hrest]; subst; cbn; apply IH; auto);
    destruct v; cbn; apply IH; auto.
Qed.

Lemma ocs_blank (name : string) (get : resp.data -> string) :
  dataField name get ->
  forall (members : list (string * json.value)) (o : resp.ocs)
         (saved : option json.error),
    Forall blank
      (d ← selected resp.ocsFields "data" members;
       selected resp.dataFields name (membersOf d)) ->
    get (resp.Data o) = "" ->
    get (resp.Data (json.object resp.ocsFields members o saved).1) = "".
Proof.
  intros Hfield.
  induction members as [|[key v] rest IH]; intros o saved Hb Ho; [exact Ho|].
  cbn [json.object selected] in *.
  destruct (json.lookupField resp.ocsFields key) as [f|] eqn:Hf; [|auto].
  apply lookupField_In in Hf. destruct Hf as [<-|[]].
  cbn in Hb. apply Forall_app in Hb as [Hv Hrest].
  cbv [json.store json.inField json.structValue].
  destruct v; cbn; try (apply IH; auto).
  destruct (json.object resp.dataFields members (resp.Data o) saved)
    as [d saved'] eqn:Hd.
  apply IH; [assumption|]. cbn.
  change d with (d, saved').1. rewrite <- Hd.
  apply (data_blank name get Hfield); assumption.
Qed.

Lemma resp_blank (name : string) (get : resp.data -> string) :
  dataField name get ->
  forall (members : list (string * json.value)) (r : resp.t)
         (saved : option json.error),
    Forall blank
      (o ← selected resp.fields "ocs" members;
       d ← selected resp.ocsFields "data" (membersOf o);
       selected resp.dataFields name (membersOf d)) ->
    get (resp.Data (resp.OCS r)) = "" ->
    get (resp.Data (resp.OCS (json.object resp.fields members r saved).1)) = "".
Proof.
  intros Hfield.
  induction members as [|[key v] rest IH]; intros r saved Hb Hr; [exact Hr|].
  cbn [json.object selected] in *.
  destruct (json.lookupField resp.fields key) as [f|] eqn:Hf; [|auto].
  apply lookupField_In in Hf. destruct Hf as [<-|[]].
  cbn in Hb. apply Forall_app in Hb as [Hv Hrest].
  cbv [json.store json.inField json.structValue].
  destruct v; cbn; try (apply IH; auto).
  destruct (json.object resp.ocsFields members (resp.OCS r) saved)
    as [o saved'] eqn:Ho.
  apply IH; [assumption|]. cbn.
  change o with (o, saved').1. rewrite <- Ho.
  apply (ocs_blank name get Hfield); assumption.
Qed.

(** A field for which the payload holds nothing but [null] and the empty
    string is left empty by the structural decode. *)
Lemma decoder_blank (name : string) (get : resp.data -> string) (data : bytes)
  (v : json.value) (r : resp.t) (saved : option json.error) :
  dataField name get ->
  json.parse data = Some v ->
  Forall blank (dataValues name v) ->
  json.Unmarshal resp.decoder data resp.zero = (r, saved) ->
  get (resp.Data (resp.OCS r)) = "".
Proof.
  intros Hfield Hparse Hb. unfold json.Unmarshal. rewrite Hparse.
  unfold resp.decoder, json.structValue, dataValues in *.
  destruct v; cbn in Hb |- *;
    try (intros [= <- _]; destruct Hfield; reflexivity).
  intros Hobj. change r with (r, saved).1. rewrite <- Hobj.
  apply (resp_blank name get Hfield); [assumption|].
  destruct Hfield; reflexivity.
Qed.

Lemma FetchAuthUser_Ok (p : Nextcloud) (token : oauth2.Token) (w w' : World)
  (u : AuthUser) :
  FetchAuthUser p token w = (Ok u, w') ->
  exists data rawUser r,
    FetchRawUserInfo p token w = (Ok data, w') /\
    json.Unmarshal json.mapValue data (Some ∅) = (rawUser, None) /\
    json.Unmarshal resp.decoder data resp.zero = (r, None) /\
    u = {| Id := resp.ID (resp.Data (resp.OCS r));
           Name := resp.DisplayName (resp.Data (resp.OCS r));
           Username := resp.ID (resp.Data (resp.OCS r));
           Email := resp.Email (resp.Data (resp.OCS r));
           AvatarURL := "";
           RawUser := rawUser;
           AccessToken := oauth2.AccessToken token;
           RefreshToken := oauth2.RefreshToken token;
           Expiry := (types.ParseDateTime (oauth2.Expiry token)).1 |}.
Proof.
  rewrite FetchAuthUser_unfold.
  destruct (FetchRawUserInfo p token w) as [[data|e] w1]; [|discriminate].
  destruct (json.Unmarshal json.mapValue data (Some ∅))
    as [rawUser [err|]] eqn:Hmap; [discriminate|].
  destruct (json.Unmarshal resp.decoder data resp.zero)
    as [r [err|]] eqn:Hresp; [discriminate|].
  intros [= <- <-]. exists data, rawUser, r. repeat split; assumption.
Qed.

Lemma FetchAuthUser_decoded (p : Nextcloud) (token : oauth2.Token)
  (w w' : World) (data : bytes) (rawUser : option (gmap string json.any))
  (r : resp.t) :
  FetchRawUserInfo p token w = (Ok data, w') ->
  json.Unmarshal json.mapValue data (Some ∅) = (rawUser, None) ->
  json.Unmarshal resp.decoder data resp.zero = (r, None) ->
  FetchAuthUser p token w =
  (Ok {| Id := resp.ID (resp.Data (resp.OCS r));
         Name := resp.DisplayName (resp.Data (resp.OCS r));
         Username := resp.ID (resp.Data (resp.OCS r));
         Email := resp.Email (resp.Data (resp.OCS r));
         AvatarURL := "";
         RawUser := rawUser;
         AccessToken := oauth2.AccessToken token;
         RefreshToken := oauth2.RefreshToken token;
         Expiry := (types.ParseDateTime (oauth2.Expiry token)).1 |}, w').
Proof.
  intros Hraw Hmap Hresp. rewrite FetchAuthUser_unfold, Hraw, Hmap, Hresp.
  reflexivity.
Qed.

Lemma NewRequestWithContext_error_kind (c : option Context)
  (method url : string) (e : error) :
  http.NewRequestWithContext c method url = Err e ->
  kindOf e = UserInfoFetchError.
Proof.
  unfold http.NewRequestWithContext.
  destruct c as [c|]; [destruct (http.stringContainsCTLByte url)|];
    intros [= <-]; reflexivity.
Qed.

Lemma sendRawUserInfoRequest_error_kind (p : BaseProvider)
  (req : http.Request) (token : oauth2.Token) (w w' : World) (e : error) :
  sendRawUserInfoRequest p req token w = (Err e, w') ->
  kindOf e = UserInfoFetchError.
Proof.
  unfold sendRawUserInfoRequest, Do, mbind, M_bind.
  destruct (transport w _) as [res|msg].
  - destruct ((200 <=? http.StatusCode res) && (http.StatusCode res <? 300));
      cbn; intros [= <- _]; reflexivity.
  - intros [= <- _]. reflexivity.
Qed.

(** Every error of [FetchRawUserInfo] comes from the request. *)
Lemma FetchRawUserInfo_error_kind (p : Nextcloud) (token : oauth2.Token)
  (w w' : World) (e : error) :
  FetchRawUserInfo p token w = (Err e, w') -> kindOf e = UserInfoFetchError.
Proof.
  unfold FetchRawUserInfo, BaseProvider_FetchRawUserInfo.
  destruct (negb (String.eqb (userInfoURL p) "")).
  - apply sendRawUserInfoRequest_error_kind.
  - unfold mbind, M_bind, lift.
    destruct (http.NewRequestWithContext (ctx p) "GET" (userInfoURL p))
      as [req|e'] eqn:Hreq.
    + apply sendRawUserInfoRequest_error_kind.
    + intros [= <- _]. eapply NewRequestWithContext_error_kind, Hreq.
Qed.

(** C4: on every successful FetchAuthUser the identity carries the
    token's access token and refresh token unchanged, and its expiry is the
    token's expiry converted by ParseDateTime. *)
Theorem C4_credentials_preserved (p : Nextcloud) (token : oauth2.Token)
  (w w' : World) (u : AuthUser) :
  FetchAuthUser p token w = (Ok u, w') ->
  AccessToken u = oauth2.AccessToken token /\
  RefreshToken u = oauth2.RefreshToken token /\
  Expiry u = (types.ParseDateTime (oauth2.Expiry token)).1.
Proof.
  intros Hok. apply FetchAuthUser_Ok in Hok as (data & rawUser & r & _ & _ & _ & ->).
  repeat split.
Qed.

(** C5: when FetchRawUserInfo fails, FetchAuthUser returns that very
    error, which is a UserInfoFetchError, and no identity: nothing is
    decoded and no rawUser is built. *)
Theorem C5_fetch_error_returned (p : Nextcloud) (token : oauth2.Token)
  (w w' : World) (e : error) :
  FetchRawUserInfo p token w = (Err e, w') ->
  FetchAuthUser p token w = (Err e, w') /\ kindOf e = UserInfoFetchError.
Proof.
  intros Hraw. split.
  - rewrite FetchAuthUser_unfold, Hraw. reflexivity.
  - eapply FetchRawUserInfo_error_kind, Hraw.
Qed.

(** C9: on every successful FetchAuthUser the username of the identity
    is its id, both being the ocs.data.id decoded from the payload, and its
    avatar URL is empty. *)
Theorem C9_username_is_id (p : Nextcloud) (token : oauth2.Token)
  (w w' : World) (u : AuthUser) :
  FetchAuthUser p token w = (Ok u, w') ->
  Username u = Id u /\ AvatarURL u = "" /\
  exists data r,
    FetchRawUserInfo p token w = (Ok data, w') /\
    json.Unmarshal resp.decoder data resp.zero = (r, None) /\
    Id u = resp.ID (resp.Data (resp.OCS r)).
Proof.
  intros Hok.
  apply FetchAuthUser_Ok in Hok as (data & rawUser & r & Hraw & _ & Hresp & ->).
  repeat split. exists data, r. repeat split; assumption.
Qed.


(** *** The scenario payload *)

Lemma janePayload_map :
  (json.Unmarshal json.mapValue janePayload (Some ∅)).2 = None.
Proof. vm_compute. reflexivity. Qed.

Lemma janePayload_resp :
  json.Unmarshal resp.decoder janePayload resp.zero =
  ({| resp.OCS := {| resp.Data :=
        {| resp.ID := "u1"; resp.DisplayName := "Jane Doe";
           resp.Email := "jane@example.test" |} |} |}, None).
Proof. vm_compute. reflexivity. Qed.

(** C3: for the profile payload of the scenario and a token whose access
    token is tok123, FetchAuthUser returns the identity with id u1, name
    Jane Doe, username u1, email jane@example.test and access token
    tok123. *)
Theorem C3_scenario_identity (p : Nextcloud) (token : oauth2.Token)
  (w w' : World) :
  oauth2.AccessToken token = "tok123" ->
  FetchRawUserInfo p token w = (Ok janePayload, w') ->
  exists u,
    FetchAuthUser p token w = (Ok u, w') /\
    Id u = "u1" /\ Name u = "Jane Doe" /\ Username u = "u1" /\
    Email u = "jane@example.test" /\ AccessToken u = "tok123".
Proof.
  intros Htok Hraw.
  destruct (json.Unmarshal json.mapValue janePayload (Some ∅))
    as [rawUser saved] eqn:Hmap.
  pose proof janePayload_map as Hsaved. rewrite Hmap in Hsaved.
  cbn in Hsaved. subst saved.
  eexists. split.
  - eapply FetchAuthUser_decoded; [exact Hraw|exact Hmap|exact janePayload_resp].
  - cbn. rewrite Htok. repeat split.
Qed.

(** C2 (as amended): whenever the fetch and both decodes of the payload
    succeed, FetchAuthUser succeeds and the identity's id is the decoded
    ocs.data.id; when the payload holds no ocs.data.id, or only null or the
    empty string for it, the identity is returned with the empty id. *)
Theorem C2_id_is_decoded_identifier (p : Nextcloud) (token : oauth2.Token)
  (w w' : World) (data : bytes) (rawUser : option (gmap string json.any))
  (r : resp.t) :
  FetchRawUserInfo p token w = (Ok data, w') ->
  json.Unmarshal json.mapValue data (Some ∅) = (rawUser, None) ->
  json.Unmarshal resp.decoder data resp.zero = (r, None) ->
  exists u,
    FetchAuthUser p token w = (Ok u, w') /\
    Id u = resp.ID (resp.Data (resp.OCS r)) /\
    (forall v, json.parse data = Some v ->
               Forall blank (dataValues "id" v) -> Id u = "").
Proof.
  intros Hraw Hmap Hresp. eexists. split; [|split].
  - eapply FetchAuthUser_decoded; eassumption.
  - reflexivity.
  - intros v Hparse Hb. cbn.
    exact (decoder_blank "id" resp.ID data v r None field_id Hparse Hb Hresp).
Qed.




(** *** The registry *)

Lemma exec_frame (s : Process) (c : Call) :
  Providers (exec s c) = Providers s /\ registered (exec s c) = registered s.
Proof. destruct c; split; reflexivity. Qed.

Lemma fold_exec_frame (calls : list Call) (s : Process) :
  Providers (fold_left exec calls s) = Providers s /\
  registered (fold_left exec calls s) = registered s.
Proof.
  revert s. induction calls as [|c calls IH]; intros s; [split; reflexivity|].
  cbn [fold_left]. destruct (IH (exec s c)) as [-> ->]. apply exec_frame.
Qed.

(** C8: in every run of a process, after init and any calls of this
    file's functions, the registry holds under the name nextcloud the
    wrapped constructor, which builds what NewNextcloudProvider builds;
    the package has stored a factory exactly once, under that name; and
    every other name is bound as it was before init. *)
Theorem C8_registered_once (s0 : Process) (calls : list Call) :
  NameNextcloud = "nextcloud" /\
  Providers (run s0 calls) !! "nextcloud"
    = Some (wrapFactory NewNextcloudProvider) /\
  receiver (wrapFactory NewNextcloudProvider tt) = NewNextcloudProvider tt /\
  registered (run s0 calls) = registered s0 ++ ["nextcloud"] /\
  (forall name, name <> "nextcloud" ->
     Providers (run s0 calls) !! name = Providers s0 !! name).
Proof.
  unfold run. destruct (fold_exec_frame calls (init s0)) as [-> ->].
  cbn [init Providers registered]. repeat split.
  - apply lookup_insert_eq.
  - intros name Hne. apply lookup_insert_ne. unfold NameNextcloud. congruence.
Qed.

End Properties.

(** ** The constructor *)

(** C7: NewNextcloudProvider takes no arguments and is a plain function:
    it has no access to the world and always returns.  The provider it
    returns has the default display name, scopes, the three endpoint URLs
    and the PKCE flag set; its client id, client secret and redirect URL
    are empty. *)
Theorem C7_constructor_defaults :
  (forall x, NewNextcloudProvider x = NewNextcloudProvider tt) /\
  displayName (NewNextcloudProvider tt) = "Nextcloud" /\
  scopes (NewNextcloudProvider tt) = ["read:user"; "user:email"] /\
  authURL (NewNextcloudProvider tt)
    = "https://nextcloud.your.domain/apps/oauth2/authorize" /\
  tokenURL (NewNextcloudProvider tt)
    = "https://nextcloud.your.domain/apps/oauth2/api/v1/token" /\
  userInfoURL (NewNextcloudProvider tt)
    = "https://nextcloud.your.domain/ocs/v2.php/cloud/user?format=json" /\
  pkce (NewNextcloudProvider tt) = true /\
  clientId (NewNextcloudProvider tt) = "" /\
  clientSecret (NewNextcloudProvider tt) = "" /\
  redirectURL (NewNextcloudProvider tt) = "".
Proof. split; [intros []; reflexivity|]. repeat split. Qed.

(** ** FetchRawUserInfo without a userInfoURL *)

(** With an empty [userInfoURL] and a context, [FetchRawUserInfo] hands
    exactly one request to the transport, a GET of the empty URL, and
    returns what the transport made of it. *)
Lemma FetchRawUserInfo_empty_URL (p : Nextcloud) (token : oauth2.Token)
  (w : World) (c : Context) :
  userInfoURL p = "" ->
  ctx p = Some c ->
  sent (FetchRawUserInfo p token w).2 = sent w ++ [emptyURLRequest token] /\
  (FetchRawUserInfo p token w).1 =
  match transport w (emptyURLRequest token) with
  | inl res =>
      if (200 <=? http.StatusCode res) && (http.StatusCode res <? 300)
      then Ok (http.Body res)
      else Err (StatusError "" (http.StatusCode res) (http.Body res))
  | inr msg => Err (TransportError msg)
  end.
Proof.
  intros Hurl Hctx.
  unfold FetchRawUserInfo, sendRawUserInfoRequest, Do, lift, mbind, M_bind.
  rewrite Hurl, Hctx. cbn -[Z.leb Z.ltb].
  assert (Hreq :
    http.Set_ "Authorization" ("Bearer " +:+ oauth2.AccessToken token)
      (http.Set_ "OCS-APIRequest" "true"
        (http.Set_ "Authorization" ("Bearer " +:+ oauth2.AccessToken token)
          {| http.Method := "GET"; http.URL := ""; http.Header := ∅ |}))
    = emptyURLRequest token).
  { reflexivity. }
  rewrite Hreq.
  destruct (transport w (emptyURLRequest token)) as [res|msg]; cbn -[Z.leb Z.ltb].
  - destruct ((200 <=? http.StatusCode res) && (http.StatusCode res <? 300));
      split; reflexivity.
  - split; reflexivity.
Qed.

(** C1: what FetchRawUserInfo does for a provider whose userInfoURL is
    empty, where no request should be issued and the claims of the token
    returned: it hands a GET of the empty URL to the transport and returns
    the body of the response, or the error of a transport that refuses the
    request.  The base method as the specification describes it, given the
    same provider, returns the claims and sends nothing. *)
Theorem C1_empty_userInfoURL_sends_request :
  userInfoURL noURLProvider = "" /\
  FetchRawUserInfo noURLProvider tok123 (answering 200 janePayload) =
    (Ok janePayload,
     {| transport := transport (answering 200 janePayload);
        sent := [emptyURLRequest tok123] |}) /\
  Ok janePayload <> Ok (oauth2.Claims tok123) /\
  FetchRawUserInfo noURLProvider tok123
      (refusing "unsupported protocol scheme") =
    (Err (TransportError "unsupported protocol scheme"),
     {| transport := transport (refusing "unsupported protocol scheme");
        sent := [emptyURLRequest tok123] |}) /\
  BaseProvider_FetchRawUserInfo noURLProvider tok123
      (answering 200 janePayload) =
    (Ok (oauth2.Claims tok123), answering 200 janePayload).
Proof.
  repeat apply conj; try reflexivity.
  intros Heq. vm_compute in Heq. discriminate Heq.
Qed.

(** ** Concrete runs *)

Example run_example :
  let s := run (parser := wrapTime) emptyProcess
             [CallFetchAuthUser exampleProvider tok123;
              CallNewNextcloudProvider;
              CallFetchRawUserInfo noURLProvider tok123] in
  registered s = ["nextcloud"] /\
  dom (Providers s) = {[ "nextcloud" ]} /\
  map http.URL (sent (world s)) = ["https://example.test/profile"; ""].
Proof. repeat apply conj; vm_compute; reflexivity. Qed.

(** The payload [{}] is valid JSON without [ocs.data.id], and so is the
    payload whose [ocs.data.id] is the empty string: [FetchAuthUser]
    succeeds on both, with an empty id. *)
Lemma C2_counterexample :
  json.parse "{}" = Some (json.JObject []) /\
  dataValues "id" (json.JObject []) = [] /\
  (FetchAuthUser (parser := wrapTime) exampleProvider tok123
     (answering 200 "{}")).1 = Ok (emptyIdentity (Some ∅)) /\
  Id (emptyIdentity (Some ∅)) = "" /\
  (FetchAuthUser (parser := wrapTime) exampleProvider tok123
     (answering 200 (dq "{'ocs':{'data':{'id':''}}}"))).1 =
    Ok (emptyIdentity (Some {[ "ocs" := json.Map {[ "data" :=
          json.Map {[ "id" := json.String_ "" ]} ]} ]})).
Proof. repeat apply conj; vm_compute; reflexivity. Qed.

(** The payload [{}]: fetch and decodes succeed, the id is empty. *)
Lemma C2_witness :
  exists u,
    FetchAuthUser (parser := wrapTime) exampleProvider tok123
      (answering 200 "{}") =
    (Ok u, (FetchRawUserInfo exampleProvider tok123 (answering 200 "{}")).2) /\
    Id u = "" /\
    (forall v, json.parse "{}" = Some v ->
               Forall blank (dataValues "id" v) -> Id u = "").
Proof.
  apply (C2_id_is_decoded_identifier (parser := wrapTime) exampleProvider
           tok123 (answering 200 "{}") _ "{}" (Some ∅) resp.zero);
    vm_compute; reflexivity.
Defined.

(** The scenario: userInfoURL https://example.test/profile, no PKCE, a
    transport that answers 200 with the payload. *)
Lemma C3_witness :
  exists u,
    FetchAuthUser (parser := wrapTime) exampleProvider tok123
      (answering 200 janePayload) =
    (Ok u, (FetchRawUserInfo exampleProvider tok123
              (answering 200 janePayload)).2) /\
    Id u = "u1" /\ Name u = "Jane Doe" /\ Username u = "u1" /\
    Email u = "jane@example.test" /\ AccessToken u = "tok123".
Proof.
  apply (C3_scenario_identity (parser := wrapTime) exampleProvider tok123
           (answering 200 janePayload) _);
    vm_compute; reflexivity.
Defined.

(** The credentials of [tok123] in the identity of the scenario. *)
Lemma C4_witness :
  (FetchAuthUser (parser := wrapTime) exampleProvider tok123
     (answering 200 janePayload)).1 = Ok janeIdentity /\
  AccessToken janeIdentity = "tok123" /\
  RefreshToken janeIdentity = "ref456" /\
  Expiry janeIdentity = {| types.Time := 63000000000 |}.
Proof.
  split; [vm_compute; reflexivity|].
  apply (C4_credentials_preserved (parser := wrapTime) exampleProvider tok123
           (answering 200 janePayload)
           (FetchRawUserInfo exampleProvider tok123
              (answering 200 janePayload)).2 janeIdentity).
  vm_compute. reflexivity.
Defined.

(** The profile endpoint answers 401. *)
Lemma C5_witness :
  FetchAuthUser (parser := wrapTime) exampleProvider tok123
    (answering 401 "Unauthorized") =
  (Err (StatusError "https://example.test/profile" 401 "Unauthorized"),
   (FetchRawUserInfo exampleProvider tok123
      (answering 401 "Unauthorized")).2) /\
  kindOf (StatusError "https://example.test/profile" 401 "Unauthorized")
    = UserInfoFetchError.
Proof.
  apply (C5_fetch_error_returned (parser := wrapTime) exampleProvider tok123
           (answering 401 "Unauthorized")).
  vm_compute. reflexivity.
Defined.



(** Username and avatar URL in the identity of the scenario. *)
Lemma C9_witness :
  (FetchAuthUser (parser := wrapTime) exampleProvider tok123
     (answering 200 janePayload)).1 = Ok janeIdentity /\
  Username janeIdentity = Id janeIdentity /\ AvatarURL janeIdentity = "" /\
  exists data r,
    FetchRawUserInfo exampleProvider tok123 (answering 200 janePayload) =
      (Ok data, (FetchRawUserInfo exampleProvider tok123
                   (answering 200 janePayload)).2) /\
    json.Unmarshal resp.decoder data resp.zero = (r, None) /\
    Id janeIdentity = resp.ID (resp.Data (resp.OCS r)).
Proof.
  split; [vm_compute; reflexivity|].
  apply (C9_username_is_id (parser := wrapTime) exampleProvider tok123
           (answering 200 janePayload)
           (FetchRawUserInfo exampleProvider tok123
              (answering 200 janePayload)).2 janeIdentity).
  vm_compute. reflexivity.
Defined.



(** * Which payloads are accepted, and what they give *)

(** ** The generic decode *)

Lemma value_nested_ind (P : json.value -> Prop) :
  P json.JNull ->
  (forall b, P (json.JBool b)) ->
  (forall lit, P (json.JNumber lit)) ->
  (forall s, P (json.JString s)) ->
  (forall elems, Forall P elems -> P (json.JArray elems)) ->
  (forall members, Forall (fun kv => P kv.2) members ->
                   P (json.JObject members)) ->
  forall v, P v.
Proof.
  intros Hnull Hbool Hnum Hstr Harr Hobj.
  fix IH 1. intros [| b | lit | s | elems | members];
    [exact Hnull | apply Hbool | apply Hnum | apply Hstr | apply Harr
    | apply Hobj].
  - induction elems as [|x l IHl]; constructor; [apply IH | exact IHl].
  - induction members as [|[k x] l IHl]; constructor; [apply IH | exact IHl].
Qed.

Lemma failed_saveError (saved : option json.error) (e : json.error) :
  failed (json.saveError saved e) = true.
Proof. destruct saved; reflexivity. Qed.

(** [valueInterface] saves an error exactly when one was saved before or
    the value holds a number out of range. *)
Lemma valueInterface_failed (v : json.value) :
  forall saved,
    failed (json.valueInterface v saved).2 = failed saved || outOfRange v.
Proof.
  induction v as [| b | lit | s | elems IH | members IH]
    using value_nested_ind; intros saved; cbn;
    try (rewrite orb_false_r; reflexivity).
  - unfold json.convertNumber.
    destruct (json.float64_overflows lit); cbn.
    + rewrite failed_saveError, orb_true_r. reflexivity.
    + rewrite orb_false_r. reflexivity.
  - revert saved. induction IH as [|x l Hx _ IHl]; intros saved; cbn.
    + rewrite orb_false_r. reflexivity.
    + specialize (Hx saved).
      destruct (json.valueInterface x saved) as [a saved1]. cbn in Hx.
      specialize (IHl saved1). cbn in IHl.
      match goal with
      | |- context [?f l saved1] =>
          is_fix f; destruct (f l saved1) as [rest saved2] eqn:Hrest
      end.
      cbn in *. rewrite IHl, Hx, orb_assoc. reflexivity.
  - generalize (∅ : gmap string json.any) as m. revert saved.
    induction IH as [|[key x] l Hx _ IHl]; intros saved m; cbn.
    + rewrite orb_false_r. reflexivity.
    + specialize (Hx saved). cbn in Hx.
      destruct (json.valueInterface x saved) as [a saved1]. cbn in Hx.
      specialize (IHl saved1 (<[key := a]> m)). cbn in IHl.
      match goal with
      | |- context [?f l (<[key := a]> m) saved1] =>
          is_fix f;
          destruct (f l (<[key := a]> m) saved1) as [m' saved2] eqn:Hrest
      end.
      cbn in *. rewrite IHl, Hx, orb_assoc. reflexivity.
Qed.

Lemma objectMap_failed (l : list (string * json.value)) :
  forall (m : gmap string json.any) (saved : option json.error),
    failed (json.objectMap l m saved).2 =
    failed saved || existsb (fun kv => outOfRange kv.2) l.
Proof.
  induction l as [|[key x] l IH]; intros m saved; cbn.
  - rewrite orb_false_r. reflexivity.
  - pose proof (valueInterface_failed x saved) as Hx.
    destruct (json.valueInterface x saved) as [a saved1]. cbn in Hx.
    rewrite IH, Hx, orb_assoc. reflexivity.
Qed.

Lemma mapValue_failed (v : json.value) (target : option (gmap string json.any)) :
  failed (json.mapValue v target None).2 = wrongShape v || outOfRange v.
Proof.
  destruct v; try reflexivity. cbn.
  pose proof (objectMap_failed members (default ∅ target) None) as Hm.
  destruct (json.objectMap members (default ∅ target) None) as [m saved].
  exact Hm.
Qed.

(** In a map decoded without error each key is bound to the decoded value
    of its last member. *)
Lemma objectMap_lookup (key : string) (l : list (string * json.value)) :
  forall (m : gmap string json.any) (acc : option json.value),
    failed (json.objectMap l m None).2 = false ->
    m !! key = (fun x => (json.valueInterface x None).1) <$> acc ->
    (json.objectMap l m None).1 !! key =
    (fun x => (json.valueInterface x None).1) <$>
      fold_left (fun acc kv => if String.eqb kv.1 key then Some kv.2 else acc)
        l acc.
Proof.
  induction l as [|[k x] l IH]; intros m acc Hok Hm; [exact Hm|].
  rewrite objectMap_failed in Hok. cbn in Hok.
  apply orb_false_elim in Hok as [Hx Hl].
  cbn. pose proof (valueInterface_failed x None) as Hsaved.
  destruct (json.valueInterface x None) as [a saved1] eqn:Ha.
  cbn in Hsaved. rewrite Hx in Hsaved.
  destruct saved1; [discriminate Hsaved|].
  apply IH.
  - rewrite objectMap_failed. exact Hl.
  - destruct (String.eqb_spec k key) as [->|Hne]; cbn.
    + rewrite lookup_insert_eq, Ha. reflexivity.
    + rewrite lookup_insert_ne by exact Hne. exact Hm.
Qed.

(** ** The structural decode *)

Lemma stringValue_failed (v : json.value) (target : string)
  (saved : option json.error) :
  failed (json.stringValue v target saved).2 = failed saved || notString v.
Proof.
  destruct v; cbn; rewrite ?failed_saveError, ?orb_true_r, ?orb_false_r;
    reflexivity.
Qed.

Lemma stringValue_last (v : json.value) (target : string)
  (saved : option json.error) :
  (json.stringValue v target saved).1 = lastString target [v].
Proof. destruct v; reflexivity. Qed.

Lemma structValue_failed {T : Type} (type : string)
  (fields : list (json.field T)) (bad : json.value -> bool) :
  (forall members target saved,
     failed (json.object fields members target saved).2 =
     failed saved || existsb bad (matched fields members)) ->
  forall v target saved,
    failed (json.structValue type fields v target saved).2 =
    failed saved || (wrongShape v || existsb bad (matched fields (membersOf v))).
Proof.
  intros Hobj v target saved.
  destruct v; cbn; rewrite ?failed_saveError, ?orb_true_r, ?orb_false_r;
    try reflexivity.
  apply Hobj.
Qed.

Lemma data_failed (members : list (string * json.value)) :
  forall (d : resp.data) (saved : option json.error),
    failed (json.object resp.dataFields members d saved).2 =
    failed saved || existsb notString (matched resp.dataFields members).
Proof.
  induction members as [|[key v] rest IH]; intros d saved;
    cbn [json.object matched existsb]; [rewrite orb_false_r; reflexivity|].
  destruct (json.lookupField resp.dataFields key) as [f|] eqn:Hf; [|apply IH].
  apply lookupField_In in Hf.
  destruct Hf as [<-|[<-|[<-|[]]]]; cbv [json.store json.inField];
    pose proof (stringValue_failed v) as Hv;
    match goal with
    | |- context [json.stringValue v ?t saved] =>
        specialize (Hv t saved);
        destruct (json.stringValue v t saved) as [x saved1]
    end;
    cbn in Hv |- *; rewrite IH, Hv, orb_assoc; reflexivity.
Qed.

Lemma ocs_failed (members : list (string * json.value)) :
  forall (o : resp.ocs) (saved : option json.error),
    failed (json.object resp.ocsFields members o saved).2 =
    failed saved || existsb badData (matched resp.ocsFields members).
Proof.
  induction members as [|[key v] rest IH]; intros o saved;
    cbn [json.object matched existsb]; [rewrite orb_false_r; reflexivity|].
  destruct (json.lookupField resp.ocsFields key) as [f|] eqn:Hf; [|apply IH].
  apply lookupField_In in Hf. destruct Hf as [<-|[]].
  cbv [json.store json.inField].
  pose proof (structValue_failed "struct" resp.dataFields notString
                data_failed v (resp.Data o) saved) as Hv.
  destruct (json.structValue "struct" resp.dataFields v (resp.Data o) saved)
    as [x saved1].
  change (failed saved1 = failed saved || badData v) in Hv.
  cbn [existsb]. rewrite IH, Hv, orb_assoc. reflexivity.
Qed.

Lemma resp_failed (members : list (string * json.value)) :
  forall (r : resp.t) (saved : option json.error),
    failed (json.object resp.fields members r saved).2 =
    failed saved || existsb badOCS (matched resp.fields members).
Proof.
  induction members as [|[key v] rest IH]; intros r saved;
    cbn [json.object matched existsb]; [rewrite orb_false_r; reflexivity|].
  destruct (json.lookupField resp.fields key) as [f|] eqn:Hf; [|apply IH].
  apply lookupField_In in Hf. destruct Hf as [<-|[]].
  cbv [json.store json.inField].
  pose proof (structValue_failed "struct" resp.ocsFields badData
                ocs_failed v (resp.OCS r) saved) as Hv.
  destruct (json.structValue "struct" resp.ocsFields v (resp.OCS r) saved)
    as [x saved1].
  change (failed saved1 = failed saved || badOCS v) in Hv.
  cbn [existsb]. rewrite IH, Hv, orb_assoc. reflexivity.
Qed.

Lemma decoder_failed (v : json.value) (r : resp.t) :
  failed (resp.decoder v r None).2 = badResp v.
Proof.
  exact (structValue_failed "struct" resp.fields badOCS resp_failed v r None).
Qed.

Lemma lastString_app (init : string) (a b : list json.value) :
  lastString init (a ++ b) = lastString (lastString init a) b.
Proof. apply fold_left_app. Qed.

Lemma data_last (name : string) (get : resp.data -> string) :
  dataField name get ->
  forall (members : list (string * json.value)) (d : resp.data)
         (saved : option json.error),
    get (json.object resp.dataFields members d saved).1 =
    lastString (get d) (selected resp.dataFields name members).
Proof.
  intros Hfield.
  induction members as [|[key v] rest IH]; intros d saved; [reflexivity|].
  cbn [json.object selected].
  destruct (json.lookupField resp.dataFields key) as [f|] eqn:Hf; [|apply IH].
  apply lookupField_In in Hf.
  destruct Hf as [<-|[<-|[<-|[]]]]; destruct Hfield;
    cbv [json.store json.inField json.name];
    match goal with
    | |- context [json.stringValue v ?t saved] =>
        pose proof (stringValue_last v t saved) as Hv;
        destruct (json.stringValue v t saved) as [x saved1]
    end;
    cbn in Hv |- *; rewrite IH; cbn; rewrite ?Hv; reflexivity.
Qed.

Lemma ocs_last (name : string) (get : resp.data -> string) :
  dataField name get ->
  forall (members : list (string * json.value)) (o : resp.ocs)
         (saved : option json.error),
    get (resp.Data (json.object resp.ocsFields members o saved).1) =
    lastString (get (resp.Data o))
      (d ← selected resp.ocsFields "data" members;
       selected resp.dataFields name (membersOf d)).
Proof.
  intros Hfield.
  induction members as [|[key v] rest IH]; intros o saved; [reflexivity|].
  cbn [json.object selected].
  destruct (json.lookupField resp.ocsFields key) as [f|] eqn:Hf; [|apply IH].
  apply lookupField_In in Hf. destruct Hf as [<-|[]].
  cbv [json.store json.inField json.structValue json.name].
  cbn [String.eqb Ascii.eqb Bool.eqb mbind list_bind].
  rewrite lastString_app.
  destruct v; cbn; [rewrite IH; reflexivity..|].
  pose proof (data_last name get Hfield members (resp.Data o) saved) as Hd.
  destruct (json.object resp.dataFields members (resp.Data o) saved)
    as [d saved1].
  cbn in Hd |- *. rewrite IH. cbn. rewrite Hd. reflexivity.
Qed.

Lemma resp_last (name : string) (get : resp.data -> string) :
  dataField name get ->
  forall (members : list (string * json.value)) (r : resp.t)
         (saved : option json.error),
    get (resp.Data (resp.OCS (json.object resp.fields members r saved).1)) =
    lastString (get (resp.Data (resp.OCS r)))
      (o ← selected resp.fields "ocs" members;
       d ← selected resp.ocsFields "data" (membersOf o);
       selected resp.dataFields name (membersOf d)).
Proof.
  intros Hfield.
  induction members as [|[key v] rest IH]; intros r saved; [reflexivity|].
  cbn [json.object selected].
  destruct (json.lookupField resp.fields key) as [f|] eqn:Hf; [|apply IH].
  apply lookupField_In in Hf. destruct Hf as [<-|[]].
  cbv [json.store json.inField json.structValue json.name].
  cbn [String.eqb Ascii.eqb Bool.eqb mbind list_bind].
  rewrite lastString_app.
  destruct v; cbn; [rewrite IH; reflexivity..|].
  pose proof (ocs_last name get Hfield members (resp.OCS r) saved) as Ho.
  destruct (json.object resp.ocsFields members (resp.OCS r) saved)
    as [o saved1].
  cbn in Ho |- *. rewrite IH. cbn. rewrite Ho. reflexivity.
Qed.

(** Each string field of the decoded structure holds the last string the
    payload has for it. *)
Lemma decoder_last (name : string) (get : resp.data -> string) (data : bytes)
  (v : json.value) (r : resp.t) (saved : option json.error) :
  dataField name get ->
  json.parse data = Some v ->
  json.Unmarshal resp.decoder data resp.zero = (r, saved) ->
  get (resp.Data (resp.OCS r)) = lastString "" (dataValues name v).
Proof.
  intros Hfield Hparse. unfold json.Unmarshal. rewrite Hparse.
  unfold resp.decoder, json.structValue, dataValues.
  destruct v; cbn;
    try (intros [= <- _]; destruct Hfield; reflexivity).
  intros Hobj. change r with (r, saved).1. rewrite <- Hobj.
  rewrite (resp_last name get Hfield). destruct Hfield; reflexivity.
Qed.

(** ** FetchAuthUser on every payload *)

Section Payloads.

Context `{parser : !types.Parser}.

(** FetchAuthUser leaves the world as FetchRawUserInfo left it: once the
    payload is fetched, nothing more is handed to the transport. *)
Theorem FetchAuthUser_world (p : Nextcloud) (token : oauth2.Token) (w : World) :
  (FetchAuthUser p token w).2 = (FetchRawUserInfo p token w).2.
Proof.
  rewrite FetchAuthUser_unfold.
  destruct (FetchRawUserInfo p token w) as [[data|e] w']; [|reflexivity].
  destruct (json.Unmarshal json.mapValue data (Some ∅)) as [rawUser [err|]];
    [reflexivity|].
  destruct (json.Unmarshal resp.decoder data resp.zero) as [r [err|]];
    reflexivity.
Qed.

(** The payloads FetchAuthUser accepts are exactly the well-formed JSON
    texts that fit the response structure and hold no number out of the
    range of float64. *)
Theorem FetchAuthUser_accepts (p : Nextcloud) (token : oauth2.Token)
  (w w' : World) (data : bytes) :
  FetchRawUserInfo p token w = (Ok data, w') ->
  (exists u, FetchAuthUser p token w = (Ok u, w')) <->
  (exists v, json.parse data = Some v /\ accepted v = true).
Proof.
  intros Hraw. rewrite FetchAuthUser_unfold, Hraw. unfold json.Unmarshal.
  destruct (json.parse data) as [v|].
  - pose proof (mapValue_failed v (Some ∅)) as Hm.
    pose proof (decoder_failed v resp.zero) as Hr.
    destruct (json.mapValue v (Some ∅) None) as [m sm].
    destruct (resp.decoder v resp.zero None) as [r sr].
    cbn in Hm, Hr. unfold accepted, badResp in *. split.
    + intros [u Hu]. exists v. split; [reflexivity|].
      destruct sm; [discriminate Hu|]. destruct sr; [discriminate Hu|].
      cbn in Hm, Hr. symmetry in Hm. apply orb_false_elim in Hm as [_ ->].
      rewrite <- Hr. reflexivity.
    + intros (v' & [= <-] & Hacc).
      apply andb_true_iff in Hacc as [Hbad Hrange].
      apply negb_true_iff in Hbad, Hrange.
      rewrite Hbad in Hr. rewrite Hrange in Hm.
      apply orb_false_elim in Hbad as [Hshape _]. rewrite Hshape in Hm.
      destruct sm; [discriminate Hm|]. destruct sr; [discriminate Hr|].
      eauto.
  - split; [intros [u Hu]; discriminate Hu|].
    intros (v & Hv & _). discriminate Hv.
Qed.

(** On success the id and the username are the last string the payload
    has for ocs.data.id, the name the last one for ocs.data.displayname and
    the email the last one for ocs.data.email, each empty when there is
    none. *)
Theorem FetchAuthUser_fields (p : Nextcloud) (token : oauth2.Token)
  (w w' : World) (u : AuthUser) (data : bytes) (v : json.value) :
  FetchAuthUser p token w = (Ok u, w') ->
  FetchRawUserInfo p token w = (Ok data, w') ->
  json.parse data = Some v ->
  Id u = lastString "" (dataValues "id" v) /\
  Username u = lastString "" (dataValues "id" v) /\
  Name u = lastString "" (dataValues "displayname" v) /\
  Email u = lastString "" (dataValues "email" v).
Proof.
  intros Hok Hraw Hparse.
  apply FetchAuthUser_Ok in Hok
    as (data' & rawUser & r & Hraw' & _ & Hresp & ->).
  rewrite Hraw in Hraw'. injection Hraw' as <-. cbn.
  pose proof (decoder_last "id" resp.ID data v r None field_id Hparse Hresp).
  pose proof (decoder_last "displayname" resp.DisplayName data v r None
                field_displayname Hparse Hresp).
  pose proof (decoder_last "email" resp.Email data v r None
                field_email Hparse Hresp).
  auto.
Qed.

(** On success rawUser is nil for the payload null and otherwise a map
    that binds each top-level key of the payload, as it is written, to the
    decoded value of the last member with that key. *)
Theorem FetchAuthUser_rawUser (p : Nextcloud) (token : oauth2.Token)
  (w w' : World) (u : AuthUser) (data : bytes) (v : json.value) :
  FetchAuthUser p token w = (Ok u, w') ->
  FetchRawUserInfo p token w = (Ok data, w') ->
  json.parse data = Some v ->
  (v = json.JNull -> RawUser u = None) /\
  (forall members, v = json.JObject members ->
     exists m, RawUser u = Some m /\
               forall key, m !! key = decoded <$> lastMember key members).
Proof.
  intros Hok Hraw Hparse.
  apply FetchAuthUser_Ok in Hok
    as (data' & rawUser & r & Hraw' & Hmap & _ & ->).
  rewrite Hraw in Hraw'. injection Hraw' as <-. cbn.
  unfold json.Unmarshal in Hmap. rewrite Hparse in Hmap. split.
  - intros ->. cbn in Hmap. injection Hmap as <-. reflexivity.
  - intros members ->. cbn in Hmap.
    destruct (json.objectMap members ∅ None) as [m saved] eqn:Hobj.
    injection Hmap as <- ->. exists m. split; [reflexivity|].
    intros key. change m with (m, @None json.error).1. rewrite <- Hobj.
    apply objectMap_lookup; [rewrite Hobj; reflexivity|].
    apply lookup_empty.
Qed.

(** An error of FetchAuthUser is the error of FetchRawUserInfo or, when
    the fetch succeeded, the error of the generic decode or, when that
    succeeded too, the error of the structural decode. *)
Theorem FetchAuthUser_error (p : Nextcloud) (token : oauth2.Token)
  (w w' : World) (e : error) :
  FetchAuthUser p token w = (Err e, w') ->
  (FetchRawUserInfo p token w = (Err e, w') /\
   kindOf e = UserInfoFetchError) \/
  (exists data je,
     FetchRawUserInfo p token w = (Ok data, w') /\
     e = JSONError je /\ kindOf e = NormalizationError /\
     ((json.Unmarshal json.mapValue data (Some ∅)).2 = Some je \/
      (json.Unmarshal json.mapValue data (Some ∅)).2 = None /\
      (json.Unmarshal resp.decoder data resp.zero).2 = Some je)).
Proof.
  rewrite FetchAuthUser_unfold.
  destruct (FetchRawUserInfo p token w) as [[data|e'] w1] eqn:Hraw.
  - destruct (json.Unmarshal json.mapValue data (Some ∅))
      as [rawUser [err|]] eqn:Hmap.
    + intros [= <- <-]. right. exists data, err.
      repeat (split; [reflexivity|]). left. rewrite Hmap. reflexivity.
    + destruct (json.Unmarshal resp.decoder data resp.zero)
        as [r [err|]] eqn:Hresp; [|discriminate].
      intros [= <- <-]. right. exists data, err.
      repeat (split; [reflexivity|]). right.
      rewrite Hmap, Hresp. split; reflexivity.
  - intros [= <- <-]. left. split; [reflexivity|].
    eapply FetchRawUserInfo_error_kind, Hraw.
Qed.

(** The zero value of the provider (no URL, no context) fails before
    anything is sent: both methods return the error of the request
    constructor and leave the world as it is. *)
Theorem nil_context_fails (p : Nextcloud) (token : oauth2.Token) (w : World) :
  userInfoURL p = "" ->
  ctx p = None ->
  FetchRawUserInfo p token w =
    (Err (RequestError "net/http: nil Context"), w) /\
  FetchAuthUser p token w =
    (Err (RequestError "net/http: nil Context"), w).
Proof.
  intros Hurl Hctx.
  assert (Hraw : FetchRawUserInfo p token w =
                 (Err (RequestError "net/http: nil Context"), w)).
  { unfold FetchRawUserInfo. rewrite Hurl, Hctx. reflexivity. }
  split; [exact Hraw|]. rewrite FetchAuthUser_unfold, Hraw. reflexivity.
Qed.

(** init overwrites without checking: whatever the registry held under
    nextcloud, it holds the wrapped constructor afterwards, and every
    other name is bound as before; running init again changes nothing;
    and a registry that already had an entry named nextcloud keeps its
    size, while one without it grows by one. *)
Theorem init_overwrites (s : Process) :
  Providers (init s) !! "nextcloud"
    = Some (wrapFactory NewNextcloudProvider) /\
  (forall name, name <> "nextcloud" ->
     Providers (init s) !! name = Providers s !! name) /\
  Providers (init (init s)) = Providers (init s) /\
  size (Providers (init s)) =
    match Providers s !! "nextcloud" with
    | Some _ => size (Providers s)
    | None => S (size (Providers s))
    end.
Proof.
  repeat apply conj.
  - cbn. apply lookup_insert_eq.
  - intros name Hne. cbn. apply lookup_insert_ne.
    unfold NameNextcloud. congruence.
  - cbn. apply insert_insert_eq.
  - cbn. unfold NameNextcloud.
    destruct (Providers s !! "nextcloud") as [f|] eqn:Hf.
    + apply map_size_insert_Some. exists f. exact Hf.
    + apply map_size_insert_None, Hf.
Qed.

(** An input that is empty or made of white space only is no JSON
    value. *)
Lemma parse_blank (data : bytes) :
  forallb json.isSpace (chars data) = true -> json.parse data = None.
Proof.
  intros Hblank. unfold json.parse.
  assert (Hfold : fold_left json.step (chars data) (json.stateBeginValue, [])
                  = (json.stateBeginValue, [])).
  { induction (chars data) as [|c l IH]; [reflexivity|].
    cbn in Hblank. apply andb_true_iff in Hblank as [Hc Hl].
    cbn [fold_left json.step]. unfold json.beginValue. rewrite Hc.
    apply IH, Hl. }
  rewrite Hfold. reflexivity.
Qed.

(** When the body fetched is empty or made of white space only,
    FetchAuthUser fails with a syntax error. *)
Theorem FetchAuthUser_blank_body (p : Nextcloud) (token : oauth2.Token)
  (w w' : World) (data : bytes) :
  FetchRawUserInfo p token w = (Ok data, w') ->
  forallb json.isSpace (chars data) = true ->
  FetchAuthUser p token w = (Err (JSONError json.SyntaxError), w').
Proof.
  intros Hraw Hblank. rewrite FetchAuthUser_unfold, Hraw.
  unfold json.Unmarshal. rewrite (parse_blank data Hblank). reflexivity.
Qed.

End Payloads.

(** The conversion of the expiry bears on the expiry alone: with another
    conversion FetchAuthUser returns the same error, or the same identity
    but for its expiry. *)
Theorem FetchAuthUser_any_conversion (a b : types.Parser) (p : Nextcloud)
  (token : oauth2.Token) (w : World) :
  match FetchAuthUser (parser := a) p token w with
  | (Ok u, w') =>
      FetchAuthUser (parser := b) p token w =
      (Ok (setExpiry (types.ParseDateTime (Parser := b)
                        (oauth2.Expiry token)).1 u), w')
  | (Err e, w') => FetchAuthUser (parser := b) p token w = (Err e, w')
  end.
Proof.
  rewrite !FetchAuthUser_unfold.
  destruct (FetchRawUserInfo p token w) as [[data|e] w']; [|reflexivity].
  destruct (json.Unmarshal json.mapValue data (Some ∅)) as [rawUser [err|]];
    [reflexivity|].
  destruct (json.Unmarshal resp.decoder data resp.zero) as [r [err|]];
    reflexivity.
Qed.

(** With an empty userInfoURL and a context, FetchRawUserInfo is the
    shared sending method applied to a GET of the empty URL whose headers
    are Authorization, with the bearer token, and Ocs-Apirequest, with
    true. *)
Theorem FetchRawUserInfo_empty_URL_request (p : Nextcloud)
  (token : oauth2.Token) (w : World) (c : Context) :
  userInfoURL p = "" ->
  ctx p = Some c ->
  FetchRawUserInfo p token w =
  sendRawUserInfoRequest p (emptyURLRequest token) token w.
Proof.
  intros Hurl Hctx. unfold FetchRawUserInfo. rewrite Hurl, Hctx.
  reflexivity.
Qed.

(** ** Concrete runs of the above *)

Lemma FetchAuthUser_accepts_witness :
  (exists u,
     FetchAuthUser (parser := wrapTime) exampleProvider tok123
       (answering 200 janePayload) =
     (Ok u, (FetchRawUserInfo exampleProvider tok123
               (answering 200 janePayload)).2)) <->
  (exists v, json.parse janePayload = Some v /\ accepted v = true).
Proof.
  apply (FetchAuthUser_accepts (parser := wrapTime) exampleProvider tok123
           (answering 200 janePayload)).
  vm_compute. reflexivity.
Defined.

Lemma FetchAuthUser_fields_witness :
  Id shadowedIdentity = "u2" /\ Username shadowedIdentity = "u2" /\
  Name shadowedIdentity = "" /\ Email shadowedIdentity = "".
Proof.
  apply (FetchAuthUser_fields (parser := wrapTime) exampleProvider tok123
           (answering 200 shadowedPayload)
           (FetchRawUserInfo exampleProvider tok123
              (answering 200 shadowedPayload)).2
           shadowedIdentity shadowedPayload
           (default json.JNull (json.parse shadowedPayload)));
    vm_compute; reflexivity.
Defined.

Lemma FetchAuthUser_rawUser_witness :
  (janeValue = json.JNull -> RawUser janeIdentity = None) /\
  (forall members, janeValue = json.JObject members ->
     exists m, RawUser janeIdentity = Some m /\
               forall key, m !! key = decoded <$> lastMember key members).
Proof.
  apply (FetchAuthUser_rawUser (parser := wrapTime) exampleProvider tok123
           (answering 200 janePayload)
           (FetchRawUserInfo exampleProvider tok123
              (answering 200 janePayload)).2
           janeIdentity janePayload janeValue);
    vm_compute; reflexivity.
Defined.

Lemma FetchAuthUser_error_witness :
  (FetchRawUserInfo exampleProvider tok123 (answering 200 numericIdPayload) =
     (Err (JSONError (json.UnmarshalTypeError "number" "string")),
      (FetchRawUserInfo exampleProvider tok123
         (answering 200 numericIdPayload)).2) /\
   kindOf (JSONError (json.UnmarshalTypeError "number" "string"))
     = UserInfoFetchError) \/
  (exists data je,
     FetchRawUserInfo exampleProvider tok123 (answering 200 numericIdPayload) =
       (Ok data, (FetchRawUserInfo exampleProvider tok123
                    (answering 200 numericIdPayload)).2) /\
     JSONError (json.UnmarshalTypeError "number" "string") = JSONError je /\
     kindOf (JSONError (json.UnmarshalTypeError "number" "string"))
       = NormalizationError /\
     ((json.Unmarshal json.mapValue data (Some ∅)).2 = Some je \/
      (json.Unmarshal json.mapValue data (Some ∅)).2 = None /\
      (json.Unmarshal resp.decoder data resp.zero).2 = Some je)).
Proof.
  apply (FetchAuthUser_error (parser := wrapTime) exampleProvider tok123
           (answering 200 numericIdPayload)).
  vm_compute. reflexivity.
Defined.

Lemma nil_context_fails_witness :
  FetchRawUserInfo zeroProvider tok123 (answering 200 janePayload) =
    (Err (RequestError "net/http: nil Context"), answering 200 janePayload) /\
  FetchAuthUser (parser := wrapTime) zeroProvider tok123
    (answering 200 janePayload) =
    (Err (RequestError "net/http: nil Context"), answering 200 janePayload).
Proof.
  apply (nil_context_fails (parser := wrapTime) zeroProvider tok123
           (answering 200 janePayload)); reflexivity.
Defined.

Lemma FetchAuthUser_blank_body_witness :
  FetchAuthUser (parser := wrapTime) exampleProvider tok123
    (answering 200 "") =
  (Err (JSONError json.SyntaxError),
   (FetchRawUserInfo exampleProvider tok123 (answering 200 "")).2).
Proof.
  apply (FetchAuthUser_blank_body (parser := wrapTime) exampleProvider tok123
           (answering 200 "") _ ""); vm_compute; reflexivity.
Defined.

Lemma FetchRawUserInfo_empty_URL_request_witness :
  FetchRawUserInfo noURLProvider tok123 (answering 200 janePayload) =
  sendRawUserInfoRequest noURLProvider (emptyURLRequest tok123) tok123
    (answering 200 janePayload).
Proof.
  apply (FetchRawUserInfo_empty_URL_request noURLProvider tok123
           (answering 200 janePayload) Background); reflexivity.
Defined.

(** ** Member names *)

Lemma upperChar_facts (c : ascii) :
  in_range 97 122 (upperChar c) = false /\
  (in_range 97 122 c = true ->
   in_range 197 197 (upperChar c) = false /\
   in_range 226 226 (upperChar c) = false /\
   upperChar c = byte_of_Z (byteZ c - 32)) /\
  in_range 191 191 (upperChar c) = in_range 191 191 c /\
  in_range 132 132 (upperChar c) = in_range 132 132 c /\
  in_range 170 170 (upperChar c) = in_range 170 170 c.
Proof.
  destruct c as [[] [] [] [] [] [] [] []]; vm_compute; repeat split;
    intros; try discriminate; reflexivity.
Qed.

Lemma foldChars_upper (l : list ascii) :
  json.foldChars (map upperChar l) = json.foldChars l.
Proof.
  remember (length l) as n eqn:Hn. revert l Hn.
  induction n as [n IH] using lt_wf_ind. intros l Hn.
  assert (Hrec : forall l', (length l' < length l)%nat ->
            json.foldChars (map upperChar l') = json.foldChars l').
  { intros l' Hlt. apply (IH (length l')); [lia|reflexivity]. }
  clear IH Hn.
  destruct l as [|c0 rest]; [reflexivity|].
  cbn [map json.foldChars].
  destruct (upperChar_facts c0) as (H0 & Hlow & _). rewrite H0.
  destruct (in_range 97 122 c0) eqn:Hc0.
  - destruct (Hlow eq_refl) as (H197 & H226 & Hup).
    destruct rest as [|c1 rest1]; cbn [map]; [rewrite Hup; reflexivity|].
    rewrite H197. cbn [andb].
    destruct rest1 as [|c2 rest2]; cbn [map].
    + rewrite Hup. f_equal. apply (Hrec [c1]). cbn. lia.
    + rewrite H226. cbn [andb]. rewrite Hup. f_equal.
      apply (Hrec (c1 :: c2 :: rest2)). cbn. lia.
  - assert (Hsame : upperChar c0 = c0) by (unfold upperChar; rewrite Hc0; reflexivity).
    rewrite Hsame.
    destruct rest as [|c1 rest1]; cbn [map]; [reflexivity|].
    destruct (upperChar_facts c1) as (_ & _ & H191 & H132 & _).
    rewrite H191.
    destruct (in_range 197 197 c0 && in_range 191 191 c1).
    + f_equal. apply Hrec. cbn. lia.
    + destruct rest1 as [|c2 rest2]; cbn [map].
      * f_equal. apply (Hrec [c1]). cbn. lia.
      * destruct (upperChar_facts c2) as (_ & _ & _ & _ & H170).
        rewrite H132, H170.
        destruct (in_range 226 226 c0 && in_range 132 132 c1
                  && in_range 170 170 c2).
        -- f_equal. apply Hrec. cbn. lia.
        -- f_equal. apply (Hrec (c1 :: c2 :: rest2)). cbn. lia.
Qed.

Lemma chars_of_chars (l : list ascii) : chars (of_chars l) = l.
Proof. apply list_ascii_of_string_of_list_ascii. Qed.

Lemma foldName_asciiUpper (s : string) :
  json.foldName (asciiUpper s) = json.foldName s.
Proof.
  unfold json.foldName, asciiUpper.
  rewrite chars_of_chars, foldChars_upper. reflexivity.
Qed.

(** For the fields of the response structure the search for an exact
    name adds nothing to the search up to case folding. *)
Lemma lookupField_folded (key : string) :
  json.lookupField resp.fields key =
    find (fun f => String.eqb (json.foldName (json.name f))
                     (json.foldName key)) resp.fields /\
  json.lookupField resp.ocsFields key =
    find (fun f => String.eqb (json.foldName (json.name f))
                     (json.foldName key)) resp.ocsFields /\
  json.lookupField resp.dataFields key =
    find (fun f => String.eqb (json.foldName (json.name f))
                     (json.foldName key)) resp.dataFields.
Proof.
  unfold json.lookupField, resp.fields, resp.ocsFields, resp.dataFields.
  cbn [find json.name]. repeat split.
  - destruct (String.eqb_spec "ocs" key) as [<-|_]; reflexivity.
  - destruct (String.eqb_spec "data" key) as [<-|_]; reflexivity.
  - destruct (String.eqb_spec "id" key) as [<-|_]; [reflexivity|].
    destruct (String.eqb_spec "displayname" key) as [<-|_]; [reflexivity|].
    destruct (String.eqb_spec "email" key) as [<-|_]; reflexivity.
Qed.

(** Member names are matched without regard to the case of ASCII
    letters: two keys that differ in it only select the same field of the
    response structure, or none, at each of its three levels. *)
Theorem member_names_ignore_case (a b : string) :
  asciiUpper a = asciiUpper b ->
  json.lookupField resp.fields a = json.lookupField resp.fields b /\
  json.lookupField resp.ocsFields a = json.lookupField resp.ocsFields b /\
  json.lookupField resp.dataFields a = json.lookupField resp.dataFields b.
Proof.
  intros Hab.
  assert (Hfold : json.foldName a = json.foldName b).
  { rewrite <- (foldName_asciiUpper a), <- (foldName_asciiUpper b), Hab.
    reflexivity. }
  destruct (lookupField_folded a) as (-> & -> & ->).
  destruct (lookupField_folded b) as (-> & -> & ->).
  rewrite Hfold. repeat split.
Qed.

Lemma member_names_ignore_case_witness :
  json.lookupField resp.fields "Id" = json.lookupField resp.fields "ID" /\
  json.lookupField resp.ocsFields "Id" = json.lookupField resp.ocsFields "ID" /\
  json.lookupField resp.dataFields "Id" = json.lookupField resp.dataFields "ID".
Proof. apply (member_names_ignore_case "Id" "ID"). reflexivity. Defined.
